(** * SlashTax: the web client and the matcher contract

    A shallow embedding of the TypeScript client of SlashTax (the typed
    API layer, the zustand store, the graph view, the upload form and the
    Instagram import page) and of the embedding matcher that the
    specification describes, followed by the properties established about
    them.

    Conventions.
    - A JavaScript string is the list of its UTF-16 code units; [js]
      turns an ASCII literal into one.
    - A React or zustand state is a record; a handler is a function from
      the state (and the outcome of what it awaits) to the new state and
      the list of calls it made, in order.
    - An awaited promise is either fulfilled with a value or rejected
      with an error: [Settled]. *)

From Stdlib Require Import ZArith QArith Qabs String Ascii List Bool Lia.
From stdpp Require Import base option list gmap.
Import ListNotations.

Local Open Scope Z_scope.
Local Open Scope list_scope.

(* ===================================================================== *)
(** * JavaScript values *)
(* ===================================================================== *)

Module JS.

(** UTF-16 code units. *)
Abbreviation code_unit := N (only parsing).
Abbreviation jsstring := (list N) (only parsing).

Definition js (s : string) : jsstring :=
  List.map N_of_ascii (list_ascii_of_string s).

(** ECMAScript [WhiteSpace] and [LineTerminator] code points, the ones
    [String.prototype.trim] strips.  All of them are in the Basic
    Multilingual Plane, hence single code units. *)
Definition is_white_space (c : code_unit) : bool :=
  ((c =? 0x0009) || (c =? 0x000B) || (c =? 0x000C) || (c =? 0x0020)
   || (c =? 0x00A0) || (c =? 0x1680)
   || ((0x2000 <=? c) && (c <=? 0x200A))
   || (c =? 0x202F) || (c =? 0x205F) || (c =? 0x3000) || (c =? 0xFEFF)
   || (c =? 0x000A) || (c =? 0x000D) || (c =? 0x2028) || (c =? 0x2029))%N.

Fixpoint trimStart (s : jsstring) : jsstring :=
  match s with
  | c :: s' => if is_white_space c then trimStart s' else s
  | [] => []
  end.

Definition trimEnd (s : jsstring) : jsstring := rev (trimStart (rev s)).

Definition trim (s : jsstring) : jsstring := trimEnd (trimStart s).

(** Truthiness of a string: every string but the empty one. *)
Definition truthy (s : jsstring) : bool :=
  match s with [] => false | _ :: _ => true end.

(** [!s] on a string. *)
Definition not_ (s : jsstring) : bool := negb (truthy s).

(** Empty or made of whitespace only. *)
Definition blank (s : jsstring) : bool := forallb is_white_space s.

(** [a || b] on strings. *)
Definition or_else (a b : jsstring) : jsstring := if truthy a then a else b.

(** [Array.prototype.slice(0, n)]. *)
Definition slice0 {A} (n : nat) (l : list A) : list A := firstn n l.

(** Values of type [unknown] found in property bags and request bodies. *)
#[warnings="-register-all"] Inductive json : Type :=
| JNull
| JBool (b : bool)
| JNum (n : Z)
| JStr (s : jsstring)
| JArr (items : list json)
| JObj (fields : list (jsstring * json)).

(** The outcome of an awaited promise. *)
Inductive Settled (E A : Type) : Type :=
| Fulfilled (a : A)
| Rejected (e : E).
Arguments Fulfilled {E A} a.
Arguments Rejected {E A} e.

(** A browser [File]: its name, its MIME type and its bytes. *)
Record File := {
  file_name : jsstring;
  file_type : jsstring;
  file_bytes : list N;
}.

End JS.
Import JS.

(* ===================================================================== *)
(** * types/index.ts *)
(* ===================================================================== *)

Module Types.

(** [GraphNode.type]. *)
Inductive NodeType := Person | Post | Location | Account | Hashtag.

Definition NodeType_name (t : NodeType) : jsstring :=
  match t with
  | Person => js "Person"
  | Post => js "Post"
  | Location => js "Location"
  | Account => js "Account"
  | Hashtag => js "Hashtag"
  end.

Record GraphNode := {
  id : jsstring;
  label : jsstring;
  type : NodeType;
  properties : list (jsstring * json);
}.

Record GraphEdge := {
  source : jsstring;
  target : jsstring;
  edge_type : jsstring;
  edge_properties : option (list (jsstring * json));
}.

Record GraphData := {
  nodes : list GraphNode;
  edges : list GraphEdge;
}.

Record PersonT := {
  person_id : jsstring;
  person_name : jsstring;
  person_notes : option jsstring;
  person_post_count : Z;
}.

Record PostT := {
  post_id : jsstring;
  shortcode : jsstring;
  caption : option jsstring;
  likes : Z;
  comments : Z;
  image_urls : list jsstring;
  post_faces_detected : Z;
  processed : bool;
}.

Record LocationT := {
  location_id : jsstring;
  location_name : jsstring;
  location_post_count : Z;
}.

Record Stats := {
  total_persons : Z;
  total_posts_stat : Z;
  total_locations : Z;
  total_accounts : Z;
  total_hashtags : Z;
  total_faces_detected : Z;
  recent_posts : list PostT;
}.

Record BoundingBox := {
  box_top : Z;
  box_right : Z;
  box_bottom : Z;
  box_left : Z;
}.

Record FaceDetection := {
  face_person_id : option jsstring;
  face_person_name : option jsstring;
  confidence : Q;
  bounding_box : BoundingBox;
  is_new_face : bool;
}.

Record PostAnalysis := {
  analysis_post_id : jsstring;
  faces : list FaceDetection;
  location : option LocationT;
  hashtags : list jsstring;
  caption_analysis : option jsstring;
}.

(** [ImportJob.status]: the union of four string literals. *)
Inductive ImportJobStatus := pending | running | completed | failed.

Definition ImportJobStatus_string (s : ImportJobStatus) : jsstring :=
  match s with
  | pending => js "pending"
  | running => js "running"
  | completed => js "completed"
  | failed => js "failed"
  end.

Record ImportJob := {
  job_id : jsstring;
  status : ImportJobStatus;
  username : jsstring;
  total_posts : Z;
  processed_posts : Z;
  faces_detected : Z;
  errors : list jsstring;
}.

End Types.
Import Types.

(* ===================================================================== *)
(** * lib/api.ts *)
(* ===================================================================== *)

Module Api.

Inductive Method := GET | POST | PUT | DELETE.

(** A multipart form: the appended (name, value) pairs in order.  A value
    is the uploaded file or a string. *)
Inductive FormValue :=
| FormFile (f : File)
| FormString (s : jsstring).

Abbreviation FormData := (list (jsstring * FormValue)) (only parsing).

Inductive Body :=
| NoBody
| JsonBody (j : json)
| FormBody (f : FormData).

(** What [api.get] / [api.post] receive: the path below [baseURL], the
    body, the query parameters and the headers of the call's own config. *)
Record Request := {
  method : Method;
  url : jsstring;
  data : Body;
  params : list (jsstring * json);
  headers : list (jsstring * jsstring);
}.

(** What axios rejects with; [detail] is [err.response?.data?.detail]. *)
Record AxiosError := {
  message : jsstring;
  detail : option jsstring;
}.

(** An API function: it resolves, rejects, or awaits one request and
    goes on with the settled response, whose [data] has type [R]. *)
Inductive Http (R A : Type) : Type :=
| Resolve (a : A)
| Reject (e : AxiosError)
| Await (req : Request) (k : Settled AxiosError R -> Http R A).
Arguments Resolve {R A} a.
Arguments Reject {R A} e.
Arguments Await {R A} req k.

(** [const { data } = await api.xxx(...); return data;] *)
Definition return_data {R} (req : Request) : Http R R :=
  Await req (fun r =>
    match r with
    | Fulfilled d => Resolve d
    | Rejected e => Reject e
    end).

(** Runs an API function against a server answering each request. *)
Fixpoint run {R A} (server : Request -> Settled AxiosError R)
    (p : Http R A) : Settled AxiosError A :=
  match p with
  | Resolve a => Fulfilled a
  | Reject e => Rejected e
  | Await req k => run server (k (server req))
  end.

(** The requests an API function sends against that server, in order. *)
Fixpoint requests {R A} (server : Request -> Settled AxiosError R)
    (p : Http R A) : list Request :=
  match p with
  | Resolve _ | Reject _ => []
  | Await req k => req :: requests server (k (server req))
  end.

(** A default parameter value applies when the argument is left out. *)
Definition default {A} (d : A) (arg : option A) : A :=
  match arg with Some a => a | None => d end.

Record ImportResponse := {
  resp_job_id : jsstring;
  resp_message : jsstring;
  status_url : jsstring;
}.

Module instagramApi.

Definition importPosts (username : jsstring)
    (maxPosts : option Z) (includeTagged : option bool)
  : Http ImportResponse ImportResponse :=
  let maxPosts := default 50 maxPosts in
  let includeTagged := default true includeTagged in
  return_data {|
    method := POST;
    url := js "/instagram/import";
    data := JsonBody (JObj [ (js "username", JStr username);
                             (js "max_posts", JNum maxPosts);
                             (js "include_tagged", JBool includeTagged) ]);
    params := [];
    headers := [];
  |}.

Definition getImportStatus (jobId : jsstring)
  : Http ImportJob ImportJob :=
  return_data {|
    method := GET;
    url := js "/instagram/import/" ++ jobId ++ js "/status";
    data := NoBody;
    params := [];
    headers := [];
  |}.

End instagramApi.

Module personsApi.

Definition createFromImage (formData : FormData)
  : Http PersonT PersonT :=
  return_data {|
    method := POST;
    url := js "/persons/from-image";
    data := FormBody formData;
    params := [];
    headers := [(js "Content-Type", js "multipart/form-data")];
  |}.

Definition getNetwork (id : jsstring) (depth : option Z)
  : Http GraphData GraphData :=
  let depth := default 2 depth in
  return_data {|
    method := GET;
    url := js "/persons/" ++ id ++ js "/network";
    data := NoBody;
    params := [(js "depth", JNum depth)];
    headers := [];
  |}.


Definition list (skip limit : option Z) : Http (list PersonT) (list PersonT) :=
  let skip := default 0 skip in
  let limit := default 100 limit in
  return_data {|
    method := GET;
    url := js "/persons/";
    data := NoBody;
    params := [(js "skip", JNum skip); (js "limit", JNum limit)];
    headers := [];
  |}.

End personsApi.

Module postsApi.

Definition upload (formData : FormData)
  : Http PostAnalysis PostAnalysis :=
  return_data {|
    method := POST;
    url := js "/posts/upload";
    data := FormBody formData;
    params := [];
    headers := [(js "Content-Type", js "multipart/form-data")];
  |}.


Definition list (skip limit : option Z) : Http (list PostT) (list PostT) :=
  let skip := default 0 skip in
  let limit := default 100 limit in
  return_data {|
    method := GET;
    url := js "/posts/";
    data := NoBody;
    params := [(js "skip", JNum skip); (js "limit", JNum limit)];
    headers := [];
  |}.

End postsApi.

Module graphApi.

Definition getFullGraph (limit : option Z)
  : Http GraphData GraphData :=
  let limit := default 500 limit in
  return_data {|
    method := GET;
    url := js "/graph/";
    data := NoBody;
    params := [(js "limit", JNum limit)];
    headers := [];
  |}.

Definition searchGet (q : jsstring) (type : option jsstring)
    (limit : option Z) : Http GraphData GraphData :=
  let type := default (js "all") type in
  let limit := default 50 limit in
  return_data {|
    method := GET;
    url := js "/graph/search";
    data := NoBody;
    params := [(js "q", JStr q); (js "type", JStr type);
               (js "limit", JNum limit)];
    headers := [];
  |}.

Definition getStats : Http Stats Stats :=
  return_data {|
    method := GET;
    url := js "/graph/stats";
    data := NoBody;
    params := [];
    headers := [];
  |}.

End graphApi.

End Api.
Import Api.

(* ===================================================================== *)
(** * lib/store.ts *)
(* ===================================================================== *)

Module Store.

Inductive GraphMode := mode2d | mode3d.

Record AppState := {
  graphData : option GraphData;
  persons : list PersonT;
  posts : list PostT;
  stats : option Stats;
  selectedNode : option GraphNode;
  searchResults : list GraphNode;
  isLoading : bool;
  error : option jsstring;
  sidebarOpen : bool;
  graphMode : GraphMode;
}.

Definition initial : AppState := {|
  graphData := None;
  persons := [];
  posts := [];
  stats := None;
  selectedNode := None;
  searchResults := [];
  isLoading := false;
  error := None;
  sidebarOpen := true;
  graphMode := mode2d;
|}.

(** One field of the partial state handed to zustand's [set]. *)
Inductive Field :=
| graphData_ (v : option GraphData)
| persons_ (v : list PersonT)
| posts_ (v : list PostT)
| stats_ (v : option Stats)
| selectedNode_ (v : option GraphNode)
| searchResults_ (v : list GraphNode)
| isLoading_ (v : bool)
| error_ (v : option jsstring)
| sidebarOpen_ (v : bool)
| graphMode_ (v : GraphMode).

Definition assign (s : AppState) (f : Field) : AppState :=
  match f with
  | graphData_ v =>
      {| graphData := v; persons := persons s; posts := posts s;
         stats := stats s; selectedNode := selectedNode s;
         searchResults := searchResults s; isLoading := isLoading s;
         error := error s; sidebarOpen := sidebarOpen s;
         graphMode := graphMode s |}
  | persons_ v =>
      {| graphData := graphData s; persons := v; posts := posts s;
         stats := stats s; selectedNode := selectedNode s;
         searchResults := searchResults s; isLoading := isLoading s;
         error := error s; sidebarOpen := sidebarOpen s;
         graphMode := graphMode s |}
  | posts_ v =>
      {| graphData := graphData s; persons := persons s; posts := v;
         stats := stats s; selectedNode := selectedNode s;
         searchResults := searchResults s; isLoading := isLoading s;
         error := error s; sidebarOpen := sidebarOpen s;
         graphMode := graphMode s |}
  | stats_ v =>
      {| graphData := graphData s; persons := persons s; posts := posts s;
         stats := v; selectedNode := selectedNode s;
         searchResults := searchResults s; isLoading := isLoading s;
         error := error s; sidebarOpen := sidebarOpen s;
         graphMode := graphMode s |}
  | selectedNode_ v =>
      {| graphData := graphData s; persons := persons s; posts := posts s;
         stats := stats s; selectedNode := v;
         searchResults := searchResults s; isLoading := isLoading s;
         error := error s; sidebarOpen := sidebarOpen s;
         graphMode := graphMode s |}
  | searchResults_ v =>
      {| graphData := graphData s; persons := persons s; posts := posts s;
         stats := stats s; selectedNode := selectedNode s;
         searchResults := v; isLoading := isLoading s;
         error := error s; sidebarOpen := sidebarOpen s;
         graphMode := graphMode s |}
  | isLoading_ v =>
      {| graphData := graphData s; persons := persons s; posts := posts s;
         stats := stats s; selectedNode := selectedNode s;
         searchResults := searchResults s; isLoading := v;
         error := error s; sidebarOpen := sidebarOpen s;
         graphMode := graphMode s |}
  | error_ v =>
      {| graphData := graphData s; persons := persons s; posts := posts s;
         stats := stats s; selectedNode := selectedNode s;
         searchResults := searchResults s; isLoading := isLoading s;
         error := v; sidebarOpen := sidebarOpen s;
         graphMode := graphMode s |}
  | sidebarOpen_ v =>
      {| graphData := graphData s; persons := persons s; posts := posts s;
         stats := stats s; selectedNode := selectedNode s;
         searchResults := searchResults s; isLoading := isLoading s;
         error := error s; sidebarOpen := v;
         graphMode := graphMode s |}
  | graphMode_ v =>
      {| graphData := graphData s; persons := persons s; posts := posts s;
         stats := stats s; selectedNode := selectedNode s;
         searchResults := searchResults s; isLoading := isLoading s;
         error := error s; sidebarOpen := sidebarOpen s;
         graphMode := v |}
  end.

(** [set({ f1: v1, ..., fn: vn })]: a shallow merge into the state. *)
Definition set (partial : list Field) (s : AppState) : AppState :=
  fold_left assign partial s.

(** The state an async action leaves once its awaited request, answered
    by [server], has settled.  [console.error] is not part of the state. *)

Definition fetchGraphData (server : Request -> Settled AxiosError GraphData)
    (limit : option Z) (s : AppState) : AppState :=
  let s := set [isLoading_ true; error_ None] s in
  match run server (graphApi.getFullGraph (Some (default 500 limit))) with
  | Fulfilled data => set [graphData_ (Some data); isLoading_ false] s
  | Rejected _ =>
      set [error_ (Some (js "Failed to fetch graph data")); isLoading_ false] s
  end.

Definition search (server : Request -> Settled AxiosError GraphData)
    (query : jsstring) (type : option jsstring) (s : AppState) : AppState :=
  let s := set [isLoading_ true; error_ None] s in
  match run server
          (graphApi.searchGet query (Some (default (js "all") type)) None) with
  | Fulfilled data => set [searchResults_ (nodes data); isLoading_ false] s
  | Rejected _ => set [error_ (Some (js "Search failed")); isLoading_ false] s
  end.

(** ** The setters and the other async actions *)

Definition setSelectedNode (node : option GraphNode) : AppState -> AppState :=
  set [selectedNode_ node].

Definition setSidebarOpen (open : bool) : AppState -> AppState :=
  set [sidebarOpen_ open].

Definition setGraphMode (mode : GraphMode) : AppState -> AppState :=
  set [graphMode_ mode].

Definition fetchPersons (server : Request -> Settled AxiosError (list PersonT))
    (s : AppState) : AppState :=
  let s := set [isLoading_ true; error_ None] s in
  match run server (personsApi.list None None) with
  | Fulfilled persons => set [persons_ persons; isLoading_ false] s
  | Rejected _ =>
      set [error_ (Some (js "Failed to fetch persons")); isLoading_ false] s
  end.

Definition fetchPosts (server : Request -> Settled AxiosError (list PostT))
    (s : AppState) : AppState :=
  let s := set [isLoading_ true; error_ None] s in
  match run server (postsApi.list None None) with
  | Fulfilled posts => set [posts_ posts; isLoading_ false] s
  | Rejected _ =>
      set [error_ (Some (js "Failed to fetch posts")); isLoading_ false] s
  end.

Definition fetchStats (server : Request -> Settled AxiosError Stats)
    (s : AppState) : AppState :=
  match run server graphApi.getStats with
  | Fulfilled stats => set [stats_ (Some stats)] s
  | Rejected _ => s
  end.

Definition fetchPersonNetwork
    (server : Request -> Settled AxiosError GraphData)
    (personId : jsstring) (depth : option Z) (s : AppState) : AppState :=
  let s := set [isLoading_ true; error_ None] s in
  match run server (personsApi.getNetwork personId (Some (default 2 depth))) with
  | Fulfilled data => set [graphData_ (Some data); isLoading_ false] s
  | Rejected _ =>
      set [error_ (Some (js "Failed to fetch person network"));
           isLoading_ false] s
  end.

(** ** Actions in flight together

    An async action runs up to its [await] when it is called and goes on
    when the request settles; other actions may start or settle in
    between.  [start] is what an action does before its [await], [settle]
    what it does after. *)

Inductive Action :=
| fetchGraphData_ | fetchPersons_ | fetchPosts_ | fetchStats_
| search_ | fetchPersonNetwork_.

(** What the awaited request of an action settled to. *)
Inductive Settlement :=
| graph_settled (r : Settled AxiosError GraphData)
| persons_settled (r : Settled AxiosError (list PersonT))
| posts_settled (r : Settled AxiosError (list PostT))
| stats_settled (r : Settled AxiosError Stats)
| search_settled (r : Settled AxiosError GraphData)
| network_settled (r : Settled AxiosError GraphData).

Definition start (a : Action) (s : AppState) : AppState :=
  match a with
  | fetchStats_ => s
  | _ => set [isLoading_ true; error_ None] s
  end.

Definition settle (c : Settlement) (s : AppState) : AppState :=
  match c with
  | graph_settled (Fulfilled data) =>
      set [graphData_ (Some data); isLoading_ false] s
  | graph_settled (Rejected _) =>
      set [error_ (Some (js "Failed to fetch graph data")); isLoading_ false] s
  | persons_settled (Fulfilled persons) =>
      set [persons_ persons; isLoading_ false] s
  | persons_settled (Rejected _) =>
      set [error_ (Some (js "Failed to fetch persons")); isLoading_ false] s
  | posts_settled (Fulfilled posts) =>
      set [posts_ posts; isLoading_ false] s
  | posts_settled (Rejected _) =>
      set [error_ (Some (js "Failed to fetch posts")); isLoading_ false] s
  | stats_settled (Fulfilled stats) => set [stats_ (Some stats)] s
  | stats_settled (Rejected _) => s
  | search_settled (Fulfilled data) =>
      set [searchResults_ (nodes data); isLoading_ false] s
  | search_settled (Rejected _) =>
      set [error_ (Some (js "Search failed")); isLoading_ false] s
  | network_settled (Fulfilled data) =>
      set [graphData_ (Some data); isLoading_ false] s
  | network_settled (Rejected _) =>
      set [error_ (Some (js "Failed to fetch person network"));
           isLoading_ false] s
  end.

(** The message the [catch] of the action stores, if the request failed
    and the action has a message. *)
Definition failure (c : Settlement) : option jsstring :=
  match c with
  | graph_settled (Rejected _) => Some (js "Failed to fetch graph data")
  | persons_settled (Rejected _) => Some (js "Failed to fetch persons")
  | posts_settled (Rejected _) => Some (js "Failed to fetch posts")
  | search_settled (Rejected _) => Some (js "Search failed")
  | network_settled (Rejected _) => Some (js "Failed to fetch person network")
  | _ => None
  end.

(** Whether the settlement is of an action that handles [isLoading]. *)
Definition loads (c : Settlement) : bool :=
  match c with stats_settled _ => false | _ => true end.

End Store.

(* ===================================================================== *)
(** * components/GraphVisualization.tsx *)
(* ===================================================================== *)

Module GraphVisualization.

Definition NODE_COLORS : list (jsstring * jsstring) :=
  [ (js "Person", js "#ef4444");
    (js "Post", js "#3b82f6");
    (js "Location", js "#22c55e");
    (js "Account", js "#a855f7");
    (js "Hashtag", js "#f97316") ].

Definition NODE_SIZES : list (jsstring * Z) :=
  [ (js "Person", 8);
    (js "Post", 6);
    (js "Location", 7);
    (js "Account", 7);
    (js "Hashtag", 5) ].

(** [table[key]]: the own property [key] of an object literal. *)
Fixpoint prop {V} (table : list (jsstring * V)) (key : jsstring) : option V :=
  match table with
  | [] => None
  | (k, v) :: rest => if decide (k = key) then Some v else prop rest key
  end.

(** [NODE_SIZES[t] || 5]: [undefined] and [0] both give way. *)
Definition size_or (d : Z) (v : option Z) : Z :=
  match v with
  | Some n => if n =? 0 then d else n
  | None => d
  end.

(** [NODE_COLORS[t] || '#888']. *)
Definition color_or (d : jsstring) (v : option jsstring) : jsstring :=
  match v with
  | Some c => or_else c d
  | None => d
  end.

Record FgNode := {
  fg_id : jsstring;
  fg_name : jsstring;
  fg_type : NodeType;
  fg_properties : list (jsstring * json);
  fg_val : Z;
  fg_color : jsstring;
}.

Record FgLink := {
  link_source : jsstring;
  link_target : jsstring;
  link_type : jsstring;
}.

Record FgData := {
  fg_nodes : list FgNode;
  fg_links : list FgLink;
}.

(** [data.nodes.forEach((node) => nodeMap.set(node.id, node))] on a fresh
    [Map]. *)
Definition nodeMap (ns : list GraphNode) : gmap (list N) GraphNode :=
  fold_left (fun m node => <[id node := node]> m) ns ∅.

(** [nodeMap.has(key)]. *)
Definition has (m : gmap (list N) GraphNode) (key : jsstring) : bool :=
  bool_decide (is_Some (m !! key)).

Definition toFgNode (node : GraphNode) : FgNode := {|
  fg_id := id node;
  fg_name := label node;
  fg_type := type node;
  fg_properties := properties node;
  fg_val := size_or 5 (prop NODE_SIZES (NodeType_name (type node)));
  fg_color := color_or (js "#888") (prop NODE_COLORS (NodeType_name (type node)));
|}.

Definition toFgLink (edge : GraphEdge) : FgLink := {|
  link_source := source edge;
  link_target := target edge;
  link_type := edge_type edge;
|}.

(** The [useMemo] transform of the component's [data] prop. *)
Definition graphData (data : GraphData) : FgData :=
  let nodeMap := nodeMap (nodes data) in
  {| fg_nodes := List.map toFgNode (nodes data);
     fg_links :=
       List.map toFgLink
         (List.filter
            (fun edge => has nodeMap (source edge) && has nodeMap (target edge))
            (edges data)) |}.

(** ** The callbacks *)

(** The node force-graph hands to a callback: the node it was given,
    with the position the simulation gave it. *)
Record PlacedNode := {
  placed : FgNode;
  node_x : Q;
  node_y : Q;
}.

Definition toGraphNode (node : FgNode) : GraphNode := {|
  id := fg_id node;
  label := fg_name node;
  type := fg_type node;
  properties := fg_properties node;
|}.

(** What a callback calls: the props of the component and the methods of
    the force-graph instance behind [fgRef]. *)
Inductive Effect :=
| onNodeClick (node : GraphNode)
| onNodeHover (node : option GraphNode)
| centerAt (x y : Q) (ms : Z)
| zoom (k : Z) (ms : Z).

(** [mode = '2d'] in the parameter list. *)
Definition mode_or_2d (mode : option Store.GraphMode) : Store.GraphMode :=
  default Store.mode2d mode.

Definition handleNodeClick (onNodeClick_provided : bool)
    (fgRef_current : bool) (mode : option Store.GraphMode)
    (node : PlacedNode) : list Effect :=
  (if onNodeClick_provided then [onNodeClick (toGraphNode (placed node))]
   else [])
  ++ (if fgRef_current
      then match mode_or_2d mode with
           | Store.mode2d =>
               [centerAt (node_x node) (node_y node) 1000; zoom 3 1000]
           | Store.mode3d => []
           end
      else []).

Definition handleNodeHover (onNodeHover_provided : bool)
    (node : option PlacedNode) : list Effect :=
  if onNodeHover_provided
  then [onNodeHover (toGraphNode <$> (placed <$> node))]
  else [].

(** [if (width && height) return { width, height };
     return { width: 800, height: 600 };] *)
Definition dimensions (width height : option Z) : Z * Z :=
  match width, height with
  | Some w, Some h =>
      if negb (w =? 0) && negb (h =? 0) then (w, h) else (800, 600)
  | _, _ => (800, 600)
  end.

End GraphVisualization.

(* ===================================================================== *)
(** * components/ImageUpload.tsx *)
(* ===================================================================== *)

Module ImageUpload.

Inductive Mode := post | person.

(** An entry of [newFaces]: a detection and, once given, the name. *)
Record NewFace := {
  face : FaceDetection;
  assignedName : option jsstring;
}.

(** [result] holds the analysis in post mode and [{}] in person mode. *)
Inductive Result :=
| Analysis (a : PostAnalysis)
| EmptyObject.

Record State := {
  file : option File;
  preview : option jsstring;
  uploading : bool;
  result : option Result;
  error : option jsstring;
  caption : jsstring;
  location : jsstring;
  personName : jsstring;
  notes : jsstring;
  newFaces : list NewFace;
}.

Definition setUploading (v : bool) (s : State) : State :=
  {| file := file s; preview := preview s; uploading := v;
     result := result s; error := error s; caption := caption s;
     location := location s; personName := personName s; notes := notes s;
     newFaces := newFaces s |}.

Definition setResult (v : option Result) (s : State) : State :=
  {| file := file s; preview := preview s; uploading := uploading s;
     result := v; error := error s; caption := caption s;
     location := location s; personName := personName s; notes := notes s;
     newFaces := newFaces s |}.

Definition setError (v : option jsstring) (s : State) : State :=
  {| file := file s; preview := preview s; uploading := uploading s;
     result := result s; error := v; caption := caption s;
     location := location s; personName := personName s; notes := notes s;
     newFaces := newFaces s |}.

Definition setNewFaces (v : list NewFace) (s : State) : State :=
  {| file := file s; preview := preview s; uploading := uploading s;
     result := result s; error := error s; caption := caption s;
     location := location s; personName := personName s; notes := notes s;
     newFaces := v |}.

(** What the handler calls outside the component. *)
Inductive Call :=
| postsApi_upload (formData : FormData)
| personsApi_createFromImage (formData : FormData)
| onSuccess.

(** [if (v) formData.append(key, v)]. *)
Definition append_if (key : jsstring) (v : jsstring) : FormData :=
  if truthy v then [(key, FormString v)] else [].

(** [err.response?.data?.detail || 'Upload failed']. *)
Definition upload_error (err : AxiosError) : jsstring :=
  match detail err with
  | Some d => or_else d (js "Upload failed")
  | None => js "Upload failed"
  end.

(** [onSuccess?.()]: the prop may be absent. *)
Definition call_onSuccess (provided : bool) : list Call :=
  if provided then [onSuccess] else [].

Definition unassigned (f : FaceDetection) : NewFace :=
  {| face := f; assignedName := None |}.

Definition handleUpload (mode : Mode) (onSuccess_provided : bool)
    (posts_server : Request -> Settled AxiosError PostAnalysis)
    (persons_server : Request -> Settled AxiosError PersonT)
    (s : State) : State * list Call :=
  match file s with
  | None => (s, [])
  | Some file =>
      let s := setUploading true s in
      let s := setError None s in
      match mode with
      | post =>
          let formData :=
            [(js "file", FormFile file)]
              ++ append_if (js "caption") (caption s)
              ++ append_if (js "location_name") (location s) in
          match run posts_server (postsApi.upload formData) with
          | Fulfilled analysis =>
              let s := setResult (Some (Analysis analysis)) s in
              let unidentified := List.filter is_new_face (faces analysis) in
              let s := setNewFaces (List.map unassigned unidentified) s in
              (setUploading false s,
               [postsApi_upload formData] ++ call_onSuccess onSuccess_provided)
          | Rejected err =>
              let s := setError (Some (upload_error err)) s in
              (setUploading false s, [postsApi_upload formData])
          end
      | person =>
          if not_ (trim (personName s)) then
            let s := setError (Some (js "Please enter a name for the person")) s in
            let s := setUploading false s in
            (s, [])
          else
            let formData :=
              [(js "file", FormFile file);
               (js "name", FormString (personName s))]
                ++ append_if (js "notes") (notes s) in
            match run persons_server (personsApi.createFromImage formData) with
            | Fulfilled _ =>
                let s := setResult (Some EmptyObject) s in
                (setUploading false s,
                 [personsApi_createFromImage formData]
                   ++ call_onSuccess onSuccess_provided)
            | Rejected err =>
                let s := setError (Some (upload_error err)) s in
                (setUploading false s, [personsApi_createFromImage formData])
            end
      end
  end.

(** ** The results panel *)

(** A chip of the "Identified Persons" row:
    [{face.person_name} ({Math.round(face.confidence * 100)}%)].  The chip
    is kept as the name and the confidence it is formatted from; the
    floating-point rounding to a percentage is not modelled. *)
Record Chip := {
  chip_name : option jsstring;
  chip_confidence : Q;
}.

Definition toChip (f : FaceDetection) : Chip :=
  {| chip_name := face_person_name f;
     chip_confidence := confidence f |}.

(** A row of the "New Faces Detected" list: the assigned name, or the
    input and the Assign button. *)
Inductive Row :=
| AssignedTo (name : jsstring)
| EnterName (f : FaceDetection).

Definition toRow (nf : NewFace) : Row :=
  match assignedName nf with
  | Some name => if truthy name then AssignedTo name else EnterName (face nf)
  | None => EnterName (face nf)
  end.

(** [cond && list]: the list is rendered when it is not empty. *)
Definition when_nonempty {A} (l : list A) : option (list A) :=
  match l with [] => None | _ :: _ => Some l end.

Record ResultsPanel := {
  faces_count : nat;
  identified : option (list Chip);
  new_faces : option (list Row);
}.

(** [result.faces] of the stored result ([undefined] on [{}]). *)
Definition result_faces (r : Result) : option (list FaceDetection) :=
  match r with
  | Analysis a => Some (faces a)
  | EmptyObject => None
  end.

(** [{result && mode === 'post' && (...)}]. *)
Definition renderResults (mode : Mode) (s : State) : option ResultsPanel :=
  match result s, mode with
  | Some r, post =>
      Some {|
        faces_count := default 0%nat (length <$> result_faces r);
        identified :=
          fs ← result_faces r;
          when_nonempty
            (List.map toChip (List.filter (fun f => negb (is_new_face f)) fs));
        new_faces := when_nonempty (List.map toRow (newFaces s));
      |}
  | _, _ => None
  end.

(** ** The other handlers and what the user can reach *)

Definition initial : State := {|
  file := None; preview := None; uploading := false; result := None;
  error := None; caption := []; location := []; personName := [];
  notes := []; newFaces := [];
|}.

Definition setFile (v : option File) (s : State) : State :=
  {| file := v; preview := preview s; uploading := uploading s;
     result := result s; error := error s; caption := caption s;
     location := location s; personName := personName s; notes := notes s;
     newFaces := newFaces s |}.

Definition setPreview (v : option jsstring) (s : State) : State :=
  {| file := file s; preview := v; uploading := uploading s;
     result := result s; error := error s; caption := caption s;
     location := location s; personName := personName s; notes := notes s;
     newFaces := newFaces s |}.

Definition setCaption (v : jsstring) (s : State) : State :=
  {| file := file s; preview := preview s; uploading := uploading s;
     result := result s; error := error s; caption := v;
     location := location s; personName := personName s; notes := notes s;
     newFaces := newFaces s |}.

Definition setLocation (v : jsstring) (s : State) : State :=
  {| file := file s; preview := preview s; uploading := uploading s;
     result := result s; error := error s; caption := caption s;
     location := v; personName := personName s; notes := notes s;
     newFaces := newFaces s |}.

Definition setPersonName (v : jsstring) (s : State) : State :=
  {| file := file s; preview := preview s; uploading := uploading s;
     result := result s; error := error s; caption := caption s;
     location := location s; personName := v; notes := notes s;
     newFaces := newFaces s |}.

Definition setNotes (v : jsstring) (s : State) : State :=
  {| file := file s; preview := preview s; uploading := uploading s;
     result := result s; error := error s; caption := caption s;
     location := location s; personName := personName s; notes := v;
     newFaces := newFaces s |}.

(** [URL.createObjectURL]: a fresh [blob:] URL, [uuid] being its tail. *)
Definition createObjectURL (uuid : jsstring) : jsstring := js "blob:" ++ uuid.

Definition onDrop (acceptedFiles : list File) (uuid : jsstring) (s : State)
  : State :=
  match acceptedFiles with
  | selectedFile :: _ =>
      let s := setFile (Some selectedFile) s in
      let s := setPreview (Some (createObjectURL uuid)) s in
      let s := setResult None s in
      let s := setError None s in
      setNewFaces [] s
  | [] => s
  end.

Definition clearFile (s : State) : State :=
  let s := setFile None s in
  let s := setPreview None s in
  let s := setResult None s in
  let s := setError None s in
  setNewFaces [] s.

(** [handleAssignFace(faceIndex, name)], for the index of a rendered row;
    [created] tells whether [personsApi.create] was fulfilled. *)
Definition handleAssignFace (faceIndex : nat) (name : jsstring)
    (created : bool) (s : State) : State :=
  if not_ (trim name) || negb (bool_decide (is_Some (result s))) then s
  else
    match newFaces s !! faceIndex with
    | Some nf =>
        if created then
          setNewFaces
            (<[faceIndex := {| face := face nf; assignedName := Some name |}]>
               (newFaces s)) s
        else s
    | None => s
    end.

(** ** Requests in flight

    [handleUpload] and [handleAssignFace] await a request; until it
    settles the form stays live, and the X button, the inputs and the
    other rows can be used.  What such a handler does once its request
    has settled is written to the state of then, from the values the
    handler captured when it was called. *)

(** [handleUpload] up to its [await], for a call that sends a request. *)
Definition upload_started (s : State) : State :=
  setError None (setUploading true s).

(** [handleUpload] after its [await]: [clicked] is the state the handler
    was called in, [s] the state when its request settles. *)
Definition upload_settled (mode : Mode)
    (posts_server : Request -> Settled AxiosError PostAnalysis)
    (persons_server : Request -> Settled AxiosError PersonT)
    (clicked s : State) : State :=
  match file clicked with
  | None => s
  | Some file =>
      match mode with
      | post =>
          let formData :=
            [(js "file", FormFile file)]
              ++ append_if (js "caption") (caption clicked)
              ++ append_if (js "location_name") (location clicked) in
          match run posts_server (postsApi.upload formData) with
          | Fulfilled analysis =>
              let s := setResult (Some (Analysis analysis)) s in
              let unidentified := List.filter is_new_face (faces analysis) in
              let s := setNewFaces (List.map unassigned unidentified) s in
              setUploading false s
          | Rejected err =>
              let s := setError (Some (upload_error err)) s in
              setUploading false s
          end
      | person =>
          if not_ (trim (personName clicked)) then s
          else
            let formData :=
              [(js "file", FormFile file);
               (js "name", FormString (personName clicked))]
                ++ append_if (js "notes") (notes clicked) in
            match run persons_server (personsApi.createFromImage formData) with
            | Fulfilled _ =>
                let s := setResult (Some EmptyObject) s in
                setUploading false s
            | Rejected err =>
                let s := setError (Some (upload_error err)) s in
                setUploading false s
            end
      end
  end.

(** [handleAssignFace] after its [await], the person having been
    created: [updated] is a copy of the [newFaces] of the state the
    handler was called in, with the row replaced, and it is what
    [setNewFaces] gets, whatever [newFaces] holds by then. *)
Definition assign_settled (faceIndex : nat) (name : jsstring)
    (clicked s : State) : State :=
  if not_ (trim name) || negb (bool_decide (is_Some (result clicked))) then s
  else
    match newFaces clicked !! faceIndex with
    | Some nf =>
        setNewFaces
          (<[faceIndex := {| face := face nf; assignedName := Some name |}]>
             (newFaces clicked)) s
    | None => s
    end.

(** The states of a mounted component: the initial one and those the
    handlers lead to.  The last three rules let a request settle after
    other handlers have run: its handler was called in a state the form
    had reached, and writes to the state the form is in. *)
Inductive Reachable (mode : Mode) (onSuccess_provided : bool) : State -> Prop :=
| reach_initial : Reachable mode onSuccess_provided initial
| reach_onDrop s files uuid :
    Reachable mode onSuccess_provided s ->
    Reachable mode onSuccess_provided (onDrop files uuid s)
| reach_clearFile s :
    Reachable mode onSuccess_provided s ->
    Reachable mode onSuccess_provided (clearFile s)
| reach_setCaption s v :
    Reachable mode onSuccess_provided s ->
    Reachable mode onSuccess_provided (setCaption v s)
| reach_setLocation s v :
    Reachable mode onSuccess_provided s ->
    Reachable mode onSuccess_provided (setLocation v s)
| reach_setPersonName s v :
    Reachable mode onSuccess_provided s ->
    Reachable mode onSuccess_provided (setPersonName v s)
| reach_setNotes s v :
    Reachable mode onSuccess_provided s ->
    Reachable mode onSuccess_provided (setNotes v s)
| reach_handleUpload s posts_server persons_server :
    Reachable mode onSuccess_provided s ->
    Reachable mode onSuccess_provided
      (fst (handleUpload mode onSuccess_provided posts_server persons_server s))
| reach_handleAssignFace s faceIndex name created :
    Reachable mode onSuccess_provided s ->
    (faceIndex < length (newFaces s))%nat ->
    Reachable mode onSuccess_provided (handleAssignFace faceIndex name created s)
| reach_upload_started s :
    Reachable mode onSuccess_provided s ->
    is_Some (file s) ->
    Reachable mode onSuccess_provided (upload_started s)
| reach_upload_settled clicked s posts_server persons_server :
    Reachable mode onSuccess_provided clicked ->
    Reachable mode onSuccess_provided s ->
    Reachable mode onSuccess_provided
      (upload_settled mode posts_server persons_server clicked s)
| reach_assign_settled clicked s faceIndex name :
    Reachable mode onSuccess_provided clicked ->
    Reachable mode onSuccess_provided s ->
    (faceIndex < length (newFaces clicked))%nat ->
    Reachable mode onSuccess_provided (assign_settled faceIndex name clicked s).

(** [{preview && (... {!result && (<button onClick={handleUpload}>)})}]:
    whether the upload button is on the page. *)
Definition upload_button_shown (s : State) : bool :=
  match preview s with
  | Some url => truthy url && negb (bool_decide (is_Some (result s)))
  | None => false
  end.

(** What every handler keeps of [newFaces] and [result]: the listed
    faces are new faces, a post form holds no [{}] and a person form no
    analysis and no listed face. *)
Definition listed_faces_new (mode : Mode) (s : State) : Prop :=
  Forall (fun nf => is_new_face (face nf) = true) (newFaces s)
  /\ match mode with
     | post => result s <> Some EmptyObject
     | person => newFaces s = [] /\ forall a, result s <> Some (Analysis a)
     end.

(** What is on the page under the preview:
    [{preview && (<div> ... {error && ...} {!result && upload button}
    {result && mode === 'post' && results} {result && mode === 'person' &&
    "Person Created!"} </div>)}].  The X button and the inputs, which
    are there whenever the block is, are left out. *)
Record PreviewBlock := {
  shown_preview : jsstring;
  shown_error : option jsstring;
  shown_upload_button : bool;
  shown_results : option ResultsPanel;
  shown_person_created : bool;
}.

Definition is_person (mode : Mode) : bool :=
  match mode with person => true | post => false end.

Definition renderPreview (mode : Mode) (s : State) : option PreviewBlock :=
  match preview s with
  | Some url =>
      if truthy url then
        Some {|
          shown_preview := url;
          shown_error :=
            match error s with
            | Some m => if truthy m then Some m else None
            | None => None
            end;
          shown_upload_button := negb (bool_decide (is_Some (result s)));
          shown_results := renderResults mode s;
          shown_person_created :=
            bool_decide (is_Some (result s)) && is_person mode;
        |}
      else None
  | None => None
  end.

(** The form a call sends, and whether an entry of a form is the file
    or a text that is not empty. *)
Definition form_of (c : Call) : option (list (list N * FormValue)) :=
  match c with
  | postsApi_upload formData | personsApi_createFromImage formData =>
      Some formData
  | onSuccess => None
  end.

Definition text_given (entry : list N * FormValue) : bool :=
  match snd entry with
  | FormFile _ => true
  | FormString v => truthy v
  end.

(** Whether a call is to [personsApi.createFromImage]. *)
Definition is_createFromImage (c : Call) : bool :=
  match c with personsApi_createFromImage _ => true | _ => false end.

End ImageUpload.

(* ===================================================================== *)
(** * app/page.tsx: the Instagram import *)
(* ===================================================================== *)

Module Home.

(** The values [importStatus] (of type [any]) is set to. *)
Inductive ImportStatus :=
| Started (result : ImportResponse)   (* { ...result, status: 'started' } *)
| Polled (job : ImportJob)            (* the answer of a status poll *)
| StartFailed (message : jsstring).   (* { status: 'failed', error } *)

Record State := {
  importUsername : jsstring;
  importMaxPosts : Z;
  importing : bool;
  importStatus : option ImportStatus;
}.

Definition setImporting (v : bool) (s : State) : State :=
  {| importUsername := importUsername s; importMaxPosts := importMaxPosts s;
     importing := v; importStatus := importStatus s |}.

Definition setImportStatus (v : option ImportStatus) (s : State) : State :=
  {| importUsername := importUsername s; importMaxPosts := importMaxPosts s;
     importing := importing s; importStatus := v |}.

(** What the handlers call outside the component.  [setTimeout_pollStatus
    ms] is [setTimeout(pollStatus, ms)]. *)
Inductive Call :=
| instagramApi_importPosts (username : jsstring) (maxPosts : Z)
| instagramApi_getImportStatus (jobId : jsstring)
| setTimeout_pollStatus (ms : Z)
| fetchGraphData
| fetchPersons
| fetchPosts
| fetchStats.

#[global] Instance Call_eq_dec : EqDecision Call.
Proof. solve_decision. Defined.

(** One run of [pollStatus], the status request being answered by
    [server].  A rejected request ends the run at the [await]. *)
Definition pollStatus (result : ImportResponse)
    (server : Request -> Settled AxiosError ImportJob)
    (s : State) : State * list Call :=
  let asked := [instagramApi_getImportStatus (resp_job_id result)] in
  match run server (instagramApi.getImportStatus (resp_job_id result)) with
  | Fulfilled status_ =>
      let s := setImportStatus (Some (Polled status_)) s in
      if decide (ImportJobStatus_string (status status_) = js "running") then
        (s, asked ++ [setTimeout_pollStatus 2000])
      else
        let s := setImporting false s in
        (s, asked ++ [fetchGraphData; fetchPersons; fetchPosts; fetchStats])
  | Rejected _ => (s, asked)
  end.

(** Whether a run left a timer behind. *)
Definition scheduled (calls : list Call) : bool :=
  bool_decide (setTimeout_pollStatus 2000 ∈ calls).

(** The timer loop: each time the pending timer fires, [pollStatus] runs
    against the server as it is then; [timeline] lists these servers in
    order.  Without a pending timer nothing runs any more. *)
Fixpoint polling (result : ImportResponse)
    (timeline : list (Request -> Settled AxiosError ImportJob))
    (s : State) : State * list Call :=
  match timeline with
  | [] => (s, [])
  | server :: later =>
      let '(s1, calls1) := pollStatus result server s in
      if scheduled calls1 then
        let '(s2, calls2) := polling result later s1 in
        (s2, calls1 ++ calls2)
      else (s1, calls1)
  end.

Definition handleInstagramImport
    (server : Request -> Settled AxiosError ImportResponse)
    (s : State) : State * list Call * option ImportResponse :=
  if not_ (trim (importUsername s)) then (s, [], None)
  else
    let s := setImporting true s in
    let s := setImportStatus None s in
    let asked := [instagramApi_importPosts (importUsername s) (importMaxPosts s)] in
    match run server
            (instagramApi.importPosts (importUsername s)
               (Some (importMaxPosts s)) None) with
    | Fulfilled result =>
        let s := setImportStatus (Some (Started result)) s in
        (s, asked ++ [setTimeout_pollStatus 2000], Some result)
    | Rejected error =>
        let s := setImportStatus (Some (StartFailed (message error))) s in
        let s := setImporting false s in
        (s, asked, None)
    end.

(** ** Property reads on [importStatus] *)

Definition status_of (st : ImportStatus) : jsstring :=
  match st with
  | Started _ => js "started"
  | Polled job => ImportJobStatus_string (status job)
  | StartFailed _ => js "failed"
  end.

Definition processed_posts_of (st : ImportStatus) : option Z :=
  match st with Polled job => Some (processed_posts job) | _ => None end.

Definition total_posts_of (st : ImportStatus) : option Z :=
  match st with Polled job => Some (total_posts job) | _ => None end.

Definition faces_detected_of (st : ImportStatus) : option Z :=
  match st with Polled job => Some (faces_detected job) | _ => None end.

Definition errors_of (st : ImportStatus) : option (list jsstring) :=
  match st with Polled job => Some (errors job) | _ => None end.

(** ** The status box *)

Inductive Colour := green | red | blue.

(** [importStatus.total_posts || '?']. *)
Inductive Total :=
| Count (n : Z)
| QuestionMark.

Definition total_or_question (v : option Z) : Total :=
  match v with
  | Some n => if n =? 0 then QuestionMark else Count n
  | None => QuestionMark
  end.

Record StatusBox := {
  colour : Colour;
  heading : jsstring;                        (* Status: {status} *)
  processed_line : option (Z * Total);       (* Processed: {p} / {t} posts *)
  faces_line : option Z;                     (* Faces detected: {n} *)
  error_items : option (list (nat * jsstring));  (* <li key={idx}>{err}</li> *)
}.

Definition box_colour (status_ : jsstring) : Colour :=
  if decide (status_ = js "completed") then green
  else if decide (status_ = js "failed") then red
  else blue.

(** [importStatus.errors?.length > 0 && (... errors.slice(0, 5).map(...))]. *)
Definition render_errors (errs : option (list jsstring))
  : option (list (nat * jsstring)) :=
  match errs with
  | Some l =>
      if (0 <? length l)%nat
      then Some (imap (fun idx err => (idx, err)) (slice0 5 l))
      else None
  | None => None
  end.

(** [{importStatus && (...)}]. *)
Definition renderImportStatus (s : State) : option StatusBox :=
  st ← importStatus s;
  Some {|
    colour := box_colour (status_of st);
    heading := status_of st;
    processed_line :=
      p ← processed_posts_of st;
      Some (p, total_or_question (total_posts_of st));
    faces_line := faces_detected_of st;
    error_items := render_errors (errors_of st);
  |}.

(** ** The whole import *)

(** [handleInstagramImport] followed by the polls its timer leads to;
    [timeline] lists the status servers the successive polls meet. *)
Definition importRun (server : Request -> Settled AxiosError ImportResponse)
    (timeline : list (Request -> Settled AxiosError ImportJob))
    (s : State) : State * list Call :=
  match handleInstagramImport server s with
  | (s1, calls1, Some result) =>
      let '(s2, calls2) := polling result timeline s1 in
      (s2, calls1 ++ calls2)
  | (s1, calls1, None) => (s1, calls1)
  end.

(** The call a poll of the import [result] starts with, and the calls
    its last branch ends with. *)
Definition status_request (result : ImportResponse) : Call :=
  instagramApi_getImportStatus (resp_job_id result).

Definition refreshes : list Call :=
  [fetchGraphData; fetchPersons; fetchPosts; fetchStats].

(** Whether a call is one of the four fetches, or a status request. *)
Definition is_refresh (c : Call) : bool :=
  match c with
  | fetchGraphData | fetchPersons | fetchPosts | fetchStats => true
  | _ => false
  end.

Definition is_status_request (c : Call) : bool :=
  match c with instagramApi_getImportStatus _ => true | _ => false end.

(** ** The views *)

Inductive View :=
| GraphExplorer
| PersonsGrid
| PostsGrid
| UploadChoice
| Upload (mode : ImageUpload.Mode) (onSuccess : list Call)
| InstagramImport
| Statistics.

(** [renderContent]: the [switch] on [currentView]; [None] is the
    [null] of the default case. *)
Definition renderContent (currentView : jsstring) : option View :=
  if decide (currentView = js "graph") then Some GraphExplorer
  else if decide (currentView = js "persons") then Some PersonsGrid
  else if decide (currentView = js "posts") then Some PostsGrid
  else if decide (currentView = js "upload") then Some UploadChoice
  else if decide (currentView = js "upload-post") then
    Some (Upload ImageUpload.post [fetchGraphData; fetchPosts; fetchStats])
  else if decide (currentView = js "upload-person") then
    Some (Upload ImageUpload.person [fetchPersons; fetchStats])
  else if decide (currentView = js "instagram") then Some InstagramImport
  else if decide (currentView = js "stats") then Some Statistics
  else None.

(** A card of the posts grid shows [post.caption?.slice(0, 100)]
    and then [(post.caption?.length || 0) > 100 && '...']. *)
Definition caption_text (caption : option jsstring) : option jsstring :=
  slice0 100 <$> caption.

Definition caption_ellipsis (caption : option jsstring) : bool :=
  (100 <? default 0 (length <$> caption))%nat.

(** ** The store as the page drives it *)

(** The mount effect: [fetchStats(); fetchGraphData(); fetchPersons();
    fetchPosts();], each up to its [await]. *)
Definition initialLoad (s : Store.AppState) : Store.AppState :=
  let s := Store.start Store.fetchStats_ s in
  let s := Store.start Store.fetchGraphData_ s in
  let s := Store.start Store.fetchPersons_ s in
  Store.start Store.fetchPosts_ s.

(** [handleExploreNetwork]: [fetchPersonNetwork(nodeId, 2)] up to its
    [await], then [setSelectedNode(null)]. *)
Definition handleExploreNetwork (s : Store.AppState) : Store.AppState :=
  let s := Store.start Store.fetchPersonNetwork_ s in
  Store.setSelectedNode None s.

(** The toolbar button:
    [setGraphMode(graphMode === '2d' ? '3d' : '2d')]. *)
Definition switchGraphMode (s : Store.AppState) : Store.AppState :=
  Store.setGraphMode
    (match Store.graphMode s with
     | Store.mode2d => Store.mode3d
     | Store.mode3d => Store.mode2d
     end) s.

End Home.

(* ===================================================================== *)
(** * components/Sidebar.tsx *)
(* ===================================================================== *)

Module Sidebar.

(** The [id] and [label] of the navigation items. *)
Definition navItems : list (list N * list N) :=
  [ (js "graph", js "Graph Explorer");
    (js "persons", js "Persons");
    (js "posts", js "Posts");
    (js "locations", js "Locations");
    (js "hashtags", js "Hashtags");
    (js "upload", js "Upload");
    (js "instagram", js "Instagram Import");
    (js "stats", js "Statistics") ].

Section Search.

(** The built-in [encodeURIComponent]; [None] when it throws
    [URIError], as it does on an unpaired surrogate. *)
Variable encodeURIComponent : list N -> option (list N).

(** [handleSearch]: the views [onNavigate] is called with.  When the
    encoding throws, the handler ends there and [onNavigate] is not
    called. *)
Definition handleSearch (searchQuery : list N) : list (list N) :=
  if truthy (trim searchQuery)
  then match encodeURIComponent searchQuery with
       | Some encoded => [js "search?q=" ++ encoded]
       | None => []
       end
  else [].

End Search.

(** The chevron button: [setSidebarOpen(!sidebarOpen)]. *)
Definition toggle (s : Store.AppState) : Store.AppState :=
  Store.setSidebarOpen (negb (Store.sidebarOpen s)) s.

(** The views the sidebar can navigate to with its buttons: the items
    and the settings button. *)
Definition destinations : list (list N) :=
  List.map fst navItems ++ [js "settings"].

End Sidebar.

(* ===================================================================== *)
(** * components/NodeDetails.tsx *)
(* ===================================================================== *)

Module NodeDetails.

(** [details] is of type [any]: the profile or the analysis as the server
    sent it, or the node's property bag. *)
Record State := {
  details : option json;
  loading : bool;
}.

Definition initial : State := {| details := None; loading := true |}.




End NodeDetails.

(* ===================================================================== *)
(** * EmbeddingMatcher (specification, section 4.1) *)
(* ===================================================================== *)

Module EmbeddingMatcher.

Section Matcher.

(** The embedding space, its distance and the configured tolerance are
    left open by the specification; distances are taken as rationals. *)
Variable Embedding : Type.
Variable distance : Embedding -> Embedding -> Q.
Variable tolerance : Q.

(** Modelled from the spec: a registered person of the PersonRegistry
    (section 3): identity, display name and the embeddings held. *)
Record Person := {
  personId : nat;
  name : jsstring;
  embeddings : list Embedding;
}.

(** Modelled from the spec: the matcher's result,
    "(personId, distance) | NoMatch". *)
Inductive MatchResult :=
| Match (personId : nat) (distance : Q)
| NoMatch.

(** Modelled from the spec: the distance between the query and every
    embedding held by the registry, which lists its persons from the
    earliest created on. *)
Definition candidates (registry : list Person) (query : Embedding)
  : list (Person * Q) :=
  flat_map
    (fun p => List.map (fun e => (p, distance e query)) (embeddings p))
    registry.

(** Modelled from the spec: the linear scan.  A later candidate replaces
    the best one only when strictly closer, so that exact ties stay with
    the earliest person. *)
Fixpoint closest_from (best : Person * Q) (cs : list (Person * Q))
  : Person * Q :=
  match cs with
  | [] => best
  | c :: cs' =>
      if Qle_bool (snd best) (snd c) then closest_from best cs'
      else closest_from c cs'
  end.

(** Modelled from the spec: the closest candidate, if there is any. *)
Definition closest (cs : list (Person * Q)) : option (Person * Q) :=
  match cs with
  | [] => None
  | c :: cs' => Some (closest_from c cs')
  end.

(** Modelled from the spec: the matcher itself, which is backend code and
    not among the sources.  "Computes distance between the query embedding
    and every embedding held by PersonRegistry; returns the closest Person
    if distance <= tolerance, else NoMatch.  If multiple persons are within
    tolerance, the strictly smallest distance wins; exact ties break by
    earliest-created person." *)
Definition match_ (registry : list Person) (query : Embedding) : MatchResult :=
  match closest (candidates registry query) with
  | Some (p, d) =>
      if Qle_bool d tolerance then Match (personId p) d else NoMatch
  | None => NoMatch
  end.

End Matcher.

Arguments personId {Embedding} p.
Arguments name {Embedding} p.
Arguments embeddings {Embedding} p.
Arguments candidates {Embedding} distance registry query.
Arguments closest_from {Embedding} best cs.
Arguments closest {Embedding} cs.
Arguments match_ {Embedding} distance tolerance registry query.

End EmbeddingMatcher.

(* ===================================================================== *)
(** * Sample data *)
(* ===================================================================== *)

Module Samples.

Definition photo : File :=
  {| file_name := js "beach.jpg"; file_type := js "image/jpeg";
     file_bytes := [0xFF; 0xD8; 0xFF]%N |}.

Definition no_answer {R} : Request -> Settled AxiosError R :=
  fun _ => Rejected {| message := js "Network Error"; detail := None |}.

(** The person form with a file dropped and a name of two spaces. *)
Definition blank_name_form : ImageUpload.State :=
  ImageUpload.setPersonName (js "  ")
    (ImageUpload.onDrop [photo] (js "3f2a") ImageUpload.initial).

(** The same form with a name and notes typed in. *)
Definition alice_form : ImageUpload.State :=
  ImageUpload.setNotes (js "met in Oslo")
    (ImageUpload.setPersonName (js "Alice")
       (ImageUpload.onDrop [photo] (js "3f2a") ImageUpload.initial)).

Definition alice_created : Request -> Settled AxiosError PersonT :=
  fun _ => Fulfilled {| person_id := js "p1"; person_name := js "Alice";
                        person_notes := Some (js "met in Oslo");
                        person_post_count := 0 |}.

(** The post form with a file dropped. *)
Definition post_form : ImageUpload.State :=
  ImageUpload.onDrop [photo] (js "3f2a") ImageUpload.initial.

Definition box : BoundingBox :=
  {| box_top := 10; box_right := 90; box_bottom := 80; box_left := 20 |}.

Definition face_alice : FaceDetection :=
  {| face_person_id := Some (js "p1"); face_person_name := Some (js "Alice");
     confidence := 9 # 10; bounding_box := box; is_new_face := false |}.

Definition face_new : FaceDetection :=
  {| face_person_id := Some (js "p2");
     face_person_name := Some (js "Unknown");
     confidence := 1; bounding_box := box; is_new_face := true |}.

(** An image with two faces, one known and one new. *)
Definition two_faces : PostAnalysis :=
  {| analysis_post_id := js "post1";
     faces := [face_alice; face_new];
     location := None; hashtags := []; caption_analysis := None |}.

Definition analysed : Request -> Settled AxiosError PostAnalysis :=
  fun _ => Fulfilled two_faces.

Definition started : ImportResponse :=
  {| resp_job_id := js "job1"; resp_message := js "Import started";
     status_url := js "/api/instagram/import/job1/status" |}.

Definition job_with (st : ImportJobStatus) (errs : list (list N)) : ImportJob :=
  {| job_id := js "job1"; status := st; username := js "alice";
     total_posts := 10; processed_posts := 7; faces_detected := 12;
     errors := errs |}.

Definition answers (job : ImportJob) : Request -> Settled AxiosError ImportJob :=
  fun _ => Fulfilled job.

Definition importing_page : Home.State :=
  {| Home.importUsername := js "alice"; Home.importMaxPosts := 50;
     Home.importing := true;
     Home.importStatus := Some (Home.Started started) |}.

Definition six_errors : list (list N) :=
  [js "e1"; js "e2"; js "e3"; js "e4"; js "e5"; js "e6"].

Definition failing_page : Home.State :=
  {| Home.importUsername := js "alice"; Home.importMaxPosts := 50;
     Home.importing := false;
     Home.importStatus := Some (Home.Polled (job_with completed six_errors)) |}.

(** An embedding space to try the matcher on: vectors of rationals under
    the Manhattan distance. *)
Fixpoint manhattan (a b : list Q) : Q :=
  match a, b with
  | x :: a', y :: b' => Qabs (x - y) + manhattan a' b'
  | _, _ => 0
  end.

Definition alice : EmbeddingMatcher.Person (list Q) :=
  {| EmbeddingMatcher.personId := 1; EmbeddingMatcher.name := js "Alice";
     EmbeddingMatcher.embeddings := [[0; 0]%Q] |}.

(** The post form once the photo has been analysed. *)
Definition analysed_form : ImageUpload.State :=
  fst (ImageUpload.handleUpload ImageUpload.post true analysed no_answer
         post_form).

Definition node_alice : GraphNode :=
  {| id := js "p1"; label := js "Alice"; type := Person; properties := [] |}.

Definition node_bob : GraphNode :=
  {| id := js "p2"; label := js "Bob"; type := Person;
     properties := [(js "notes", JStr (js "met in Oslo"))] |}.

Definition node_post : GraphNode :=
  {| id := js "post1"; label := js "beach"; type := Post; properties := [] |}.

(** Two persons appearing in one post. *)
Definition closed_graph : GraphData :=
  {| nodes := [node_alice; node_bob; node_post];
     edges := [ {| source := js "p1"; target := js "post1";
                   edge_type := js "APPEARS_IN"; edge_properties := None |};
                {| source := js "p2"; target := js "post1";
                   edge_type := js "APPEARS_IN"; edge_properties := None |} ] |}.

(** An analysis that finds no face. *)
Definition no_faces : PostAnalysis :=
  {| analysis_post_id := js "post2"; faces := [];
     location := None; hashtags := []; caption_analysis := None |}.

(** The form cleared after [analysed_form], another photo dropped and
    analysed, no face found. *)
Definition empty_photo_form : ImageUpload.State :=
  fst (ImageUpload.handleUpload ImageUpload.post true
         (fun _ => Fulfilled no_faces) no_answer
         (ImageUpload.onDrop [photo] (js "77c1")
            (ImageUpload.clearFile analysed_form))).

(** The same form once a naming clicked on [analysed_form] has settled. *)
Definition late_named_form : ImageUpload.State :=
  ImageUpload.assign_settled 0 (js "Bob") analysed_form empty_photo_form.

(** A job that failed before it found any post. *)
Definition profile_not_found : ImportJob :=
  {| job_id := js "job2"; status := failed; username := js "nobody";
     total_posts := 0; processed_posts := 0; faces_detected := 0;
     errors := [js "Profile not found"] |}.

Definition not_found_page : Home.State :=
  {| Home.importUsername := js "nobody"; Home.importMaxPosts := 50;
     Home.importing := false;
     Home.importStatus := Some (Home.Polled profile_not_found) |}.

(** The import page with a username typed in. *)
Definition typed_page : Home.State :=
  {| Home.importUsername := js "alice"; Home.importMaxPosts := 50;
     Home.importing := false; Home.importStatus := None |}.

Definition accepted : Request -> Settled AxiosError ImportResponse :=
  fun _ => Fulfilled started.

End Samples.

(* ===================================================================== *)
(** * Properties *)
(* ===================================================================== *)

(** ** Strings *)

Section Strings.

Implicit Types s : list N.

Lemma trimStart_nil_iff s : trimStart s = [] <-> blank s = true.
Proof.
  induction s as [|c s IH]; simpl; [tauto|].
  destruct (is_white_space c); simpl; [exact IH|].
  split; discriminate.
Qed.

Lemma not_trim_blank s : not_ (trim s) = blank s.
Proof.
  unfold not_, trim, trimEnd.
  destruct (blank s) eqn:Hb.
  - apply trimStart_nil_iff in Hb. rewrite Hb. reflexivity.
  - assert (Hne : trimStart s <> []).
    { intros H. apply trimStart_nil_iff in H. congruence. }
    assert (Hlast : forall t, t <> [] -> trimStart t = t ->
                              trimStart (rev t) <> []).
    { intros t Ht Hfix Hnil. apply trimStart_nil_iff in Hnil.
      destruct t as [|c t]; [congruence|].
      simpl in Hfix. destruct (is_white_space c) eqn:Hc.
      - assert (Hlen : length (trimStart t) = S (length t)) by (rewrite Hfix; reflexivity).
        assert (Hle : forall u, (length (trimStart u) <= length u)%nat).
        { clear. induction u as [|d u IHu]; simpl; [lia|].
          destruct (is_white_space d); simpl; lia. }
        specialize (Hle t). lia.
      - unfold blank in Hnil. rewrite forallb_forall in Hnil.
        specialize (Hnil c). rewrite Hc in Hnil.
        assert (false = true); [|discriminate].
        apply Hnil. apply in_rev. rewrite rev_involutive. left. reflexivity. }
    assert (Hfix : trimStart (trimStart s) = trimStart s).
    { clear. induction s as [|c s IH]; simpl; [reflexivity|].
      destruct (is_white_space c) eqn:Hc; [exact IH|].
      simpl. rewrite Hc. reflexivity. }
    specialize (Hlast _ Hne Hfix).
    destruct (rev (trimStart (rev (trimStart s)))) eqn:Hr; [|reflexivity].
    apply (f_equal (@rev N)) in Hr. rewrite rev_involutive in Hr.
    simpl in Hr. congruence.
Qed.

End Strings.

(** ** The graph view *)

Section GraphView.

Import GraphVisualization.

Lemma fold_insert_lookup (ns : list GraphNode) (m : gmap (list N) GraphNode)
    (k : list N) :
  is_Some (fold_left (fun m node => <[id node := node]> m) ns m !! k)
  <-> k ∈ List.map id ns \/ is_Some (m !! k).
Proof.
  revert m. induction ns as [|n ns IH]; intros m; simpl.
  - split; [tauto|]. intros [H|H]; [inversion H|exact H].
  - rewrite IH. rewrite lookup_insert_is_Some, elem_of_cons.
    destruct (decide (id n = k)) as [->|Hne]; [tauto|].
    split.
    + intros [H|[H|[_ H]]]; [tauto|congruence|tauto].
    + intros [[H|H]|H]; [congruence|tauto|right; right; tauto].
Qed.

Lemma has_nodeMap (ns : list GraphNode) (k : list N) :
  has (nodeMap ns) k = bool_decide (k ∈ List.map id ns).
Proof.
  unfold has, nodeMap. apply bool_decide_ext.
  rewrite fold_insert_lookup, lookup_empty.
  split; [intros [H|H]; [exact H|destruct H; discriminate]|tauto].
Qed.

Lemma fg_ids (data : GraphData) :
  List.map fg_id (fg_nodes (graphData data)) = List.map id (nodes data).
Proof.
  unfold graphData. simpl. rewrite List.map_map. reflexivity.
Qed.

(** C2. The links handed to the force graph are exactly the input edges
    whose source and target are both ids of input nodes, in their order
    and projected to (source, target, type); and every link's source and
    target is the id of a node of the rendered node list. *)
Theorem graphData_links_exactly (data : GraphData) :
  let ids := List.map id (nodes data) in
  let out := graphData data in
  fg_links out =
    List.map toFgLink
      (List.filter
         (fun edge => bool_decide (source edge ∈ ids)
                      && bool_decide (target edge ∈ ids))
         (edges data))
  /\ Forall (fun l => link_source l ∈ List.map fg_id (fg_nodes out)
                      /\ link_target l ∈ List.map fg_id (fg_nodes out))
            (fg_links out).
Proof.
  intros ids out.
  assert (Heq : fg_links out =
    List.map toFgLink
      (List.filter
         (fun edge => bool_decide (source edge ∈ ids)
                      && bool_decide (target edge ∈ ids))
         (edges data))).
  { unfold out, graphData. simpl. f_equal.
    apply List.filter_ext. intros e. rewrite !has_nodeMap. reflexivity. }
  split; [exact Heq|].
  rewrite Heq. subst out. rewrite fg_ids. fold ids.
  rewrite Forall_forall. intros l Hl.
  apply list_elem_of_In, in_map_iff in Hl. destruct Hl as (e & <- & He).
  apply filter_In in He. destruct He as [_ He].
  apply andb_true_iff in He. destruct He as [Hs Ht].
  apply bool_decide_eq_true in Hs, Ht. simpl. tauto.
Qed.

End GraphView.

(** ** The import job type and the API layer *)

Section ApiLayer.

Import instagramApi.

(** C6. Called with the username alone, [importPosts] sends one request,
    a POST to /instagram/import whose body is
    {username, max_posts: 50, include_tagged: true}, and settles as that
    request does: fulfilled with the response data (job_id, message,
    status_url), or rejected with the request's error. *)
Theorem importPosts_defaults (username : list N)
    (server : Request -> Settled AxiosError ImportResponse) :
  let import_request := {|
    method := POST;
    url := js "/instagram/import";
    data := JsonBody (JObj [ (js "username", JStr username);
                             (js "max_posts", JNum 50);
                             (js "include_tagged", JBool true) ]);
    params := [];
    headers := [];
  |} in
  importPosts username None None = return_data import_request
  /\ requests server (importPosts username None None) = [import_request]
  /\ run server (importPosts username None None) = server import_request.
Proof.
  intros import_request.
  split; [reflexivity|]. split.
  - simpl. fold import_request. destruct (server import_request); reflexivity.
  - simpl. fold import_request. destruct (server import_request); reflexivity.
Qed.

End ApiLayer.

(** ** The store *)

Section StoreActions.

Import Store.

Variable server : Request -> Settled AxiosError GraphData.

(** C9. [fetchGraphData] on error: [graphData] is what it was, [error] is
    'Failed to fetch graph data' and [isLoading] is false.  On success:
    [graphData] is the response, [error] is null and [isLoading] is false.
    No other field changes either way. *)
Theorem fetchGraphData_outcome (limit : option Z) (s : AppState) :
  let s' := fetchGraphData server limit s in
  match run server (graphApi.getFullGraph (Some (default 500 limit))) with
  | Rejected _ =>
      graphData s' = graphData s
      /\ error s' = Some (js "Failed to fetch graph data")
      /\ isLoading s' = false
  | Fulfilled response =>
      graphData s' = Some response
      /\ error s' = None
      /\ isLoading s' = false
  end
  /\ persons s' = persons s /\ posts s' = posts s /\ stats s' = stats s
  /\ selectedNode s' = selectedNode s /\ searchResults s' = searchResults s
  /\ sidebarOpen s' = sidebarOpen s /\ graphMode s' = graphMode s.
Proof.
  intros s'. subst s'. unfold fetchGraphData.
  destruct (run server _); simpl; repeat split; reflexivity.
Qed.

(** C10. [search] changes [searchResults], [isLoading] and [error] only:
    whatever the query and however the request settles, [graphData],
    [persons], [posts], [stats], [selectedNode], [sidebarOpen] and
    [graphMode] are what they were. *)
Theorem search_frame (query : list N) (type : option (list N))
    (s : AppState) :
  let s' := search server query type s in
  graphData s' = graphData s
  /\ persons s' = persons s
  /\ posts s' = posts s
  /\ stats s' = stats s
  /\ selectedNode s' = selectedNode s
  /\ sidebarOpen s' = sidebarOpen s
  /\ graphMode s' = graphMode s.
Proof.
  intros s'. subst s'. unfold search.
  destruct (run server _); simpl; repeat split; reflexivity.
Qed.

End StoreActions.

(** ** The upload form *)

Section UploadForm.

Import ImageUpload.

Variable onSuccess_provided : bool.
Variable posts_server : Request -> Settled AxiosError PostAnalysis.
Variable persons_server : Request -> Settled AxiosError PersonT.

(** [handleUpload] and [handleAssignFace] leave the file and its preview
    alone. *)
Lemma handleUpload_keeps_file (mode : Mode) ps pes (s : State) :
  let s' := fst (handleUpload mode onSuccess_provided ps pes s) in
  file s' = file s /\ preview s' = preview s.
Proof.
  unfold handleUpload. destruct (file s) as [f|] eqn:Hf; [|simpl; auto].
  destruct mode.
  - destruct (run ps _); simpl; auto.
  - destruct (not_ _); [|destruct (run pes _)]; simpl; auto.
Qed.

Lemma handleAssignFace_keeps_file i name created (s : State) :
  let s' := handleAssignFace i name created s in
  file s' = file s /\ preview s' = preview s.
Proof.
  unfold handleAssignFace.
  destruct (_ || _); [auto|].
  destruct (newFaces s !! i); [|auto].
  destruct created; simpl; auto.
Qed.

Lemma upload_settled_keeps_file (mode : Mode) ps pes (clicked s : State) :
  let s' := upload_settled mode ps pes clicked s in
  file s' = file s /\ preview s' = preview s.
Proof.
  unfold upload_settled. destruct (file clicked); [|auto].
  destruct mode.
  - destruct (run ps _); simpl; auto.
  - destruct (not_ _); [|destruct (run pes _)]; simpl; auto.
Qed.

Lemma assign_settled_keeps_file i name (clicked s : State) :
  let s' := assign_settled i name clicked s in
  file s' = file s /\ preview s' = preview s.
Proof.
  unfold assign_settled.
  destruct (_ || _); [auto|].
  destruct (newFaces clicked !! i); simpl; auto.
Qed.

(** A preview is on the page only together with the file it shows. *)
Lemma preview_has_file (mode : Mode) (s : State) :
  Reachable mode onSuccess_provided s ->
  is_Some (preview s) -> is_Some (file s).
Proof.
  induction 1 as [|s files uuid _ IH|s _ IH|s v _ IH|s v _ IH|s v _ IH
                  |s v _ IH|s ps pes _ IH|s i name created _ IH Hi
                  |s _ IH Hf|clicked s ps pes _ _ _ IH
                  |clicked s i name _ _ _ IH Hi];
    try exact IH.
  - intros [? H]; discriminate.
  - destruct files as [|f files]; simpl; [exact IH|eauto].
  - intros [? H]; discriminate.
  - destruct (handleUpload_keeps_file mode ps pes s) as [-> ->]. exact IH.
  - destruct (handleAssignFace_keeps_file i name created s) as [-> ->].
    exact IH.
  - destruct (upload_settled_keeps_file mode ps pes clicked s) as [-> ->].
    exact IH.
  - destruct (assign_settled_keeps_file i name clicked s) as [-> ->].
    exact IH.
Qed.

Lemma shown_has_file (mode : Mode) (s : State) :
  Reachable mode onSuccess_provided s ->
  upload_button_shown s = true -> exists f, file s = Some f.
Proof.
  intros Hr Hshown.
  destruct (preview_has_file mode s Hr) as [f Hf]; [|eauto].
  unfold upload_button_shown in Hshown.
  destruct (preview s); [eauto|discriminate].
Qed.

(** C7. In person mode, with an empty or whitespace-only name,
    [handleUpload] does not call [personsApi.createFromImage]; with the
    file selected it sets the error 'Please enter a name for the person'
    and [uploading] is false again.  With a selected file and any other
    name, [createFromImage] is called exactly once, with that file, that
    name, and the notes when there are any.  The upload button is on the
    page only when a file is selected. *)
Theorem handleUpload_person_name_guard (s : State) :
  (let '(s', calls) :=
     handleUpload person onSuccess_provided posts_server persons_server s in
   (blank (personName s) = true ->
      List.filter is_createFromImage calls = []
      /\ (is_Some (file s) ->
          error s' = Some (js "Please enter a name for the person")
          /\ uploading s' = false))
   /\ (blank (personName s) = false ->
       forall f, file s = Some f ->
       List.filter is_createFromImage calls =
         [personsApi_createFromImage
            ([(js "file", FormFile f);
              (js "name", FormString (personName s))]
               ++ (if truthy (notes s)
                   then [(js "notes", FormString (notes s))]
                   else []))]))
  /\ (Reachable person onSuccess_provided s ->
      upload_button_shown s = true -> is_Some (file s)).
Proof.
  split.
  - unfold handleUpload.
    destruct (file s) as [f|] eqn:Hf.
    + simpl personName. simpl notes. rewrite not_trim_blank.
      destruct (blank (personName s)) eqn:Hb.
      * split; [|discriminate]. intros _. simpl. auto.
      * fold (append_if (js "notes") (notes s)).
        destruct (run persons_server _); (split; [discriminate|]);
          intros _ f' Hf'; injection Hf' as <-.
        -- simpl. destruct onSuccess_provided; reflexivity.
        -- reflexivity.
    + split.
      * intros _. split; [reflexivity|]. intros [? H]; discriminate.
      * intros _ f H; discriminate.
  - intros Hr Hshown. destruct (shown_has_file person s Hr Hshown); eauto.
Qed.


End UploadForm.

(** ** The Instagram import *)

Section InstagramImport.

Import Home.

Lemma running_string (st : ImportJobStatus) :
  ImportJobStatus_string st = js "running" <-> st = running.
Proof.
  split; [|intros ->; reflexivity].
  destruct st; intros H; try reflexivity; vm_compute in H; discriminate.
Qed.

(** C4. When a status poll of a started import returns, the answer is
    stored, and [pollStatus] is scheduled again, 2000 ms later, exactly
    when the returned status is 'running'.  After any other status,
    'pending' included, [importing] is false, the graph, persons, posts
    and stats are fetched again, and no poll ever follows. *)
Theorem pollStatus_again_iff_running (result : ImportResponse)
    (server : Request -> Settled AxiosError ImportJob) (s : State)
    (job : ImportJob) :
  run server (instagramApi.getImportStatus (resp_job_id result))
  = Fulfilled job ->
  let '(s', calls) := pollStatus result server s in
  let asked := instagramApi_getImportStatus (resp_job_id result) in
  importStatus s' = Some (Polled job)
  /\ (setTimeout_pollStatus 2000 ∈ calls
      <-> ImportJobStatus_string (status job) = js "running")
  /\ (forall ms, setTimeout_pollStatus ms ∈ calls -> ms = 2000)
  /\ (status job = running ->
      importing s' = importing s
      /\ calls = [asked; setTimeout_pollStatus 2000]
      /\ forall later,
          polling result (server :: later) s
          = (let '(s2, calls2) := polling result later s' in
             (s2, calls ++ calls2)))
  /\ (status job <> running ->
      importing s' = false
      /\ calls = [asked; fetchGraphData; fetchPersons; fetchPosts; fetchStats]
      /\ forall later, polling result (server :: later) s = (s', calls)).
Proof.
  intros Hrun.
  destruct (pollStatus result server s) as [s' calls] eqn:Hpoll.
  unfold pollStatus in Hpoll. rewrite Hrun in Hpoll.
  assert (Hstep : forall later,
    polling result (server :: later) s =
    (if scheduled calls
     then let '(s2, calls2) := polling result later s' in (s2, calls ++ calls2)
     else (s', calls))).
  { intros later. simpl. unfold pollStatus. rewrite Hrun.
    destruct (decide _); injection Hpoll as <- <-; reflexivity. }
  destruct (decide (ImportJobStatus_string (status job) = js "running"))
    as [Hr|Hr]; injection Hpoll as <- <-.
  - split; [reflexivity|]. split.
    { split; [intros _; exact Hr|intros _].
      apply list_elem_of_further, list_elem_of_here. }
    split.
    { intros ms Hms. apply list_elem_of_In in Hms. simpl in Hms.
      destruct Hms as [H|[H|[]]]; [discriminate|congruence]. }
    split.
    + intros _. split; [reflexivity|]. split; [reflexivity|].
      intros later. rewrite Hstep. reflexivity.
    + intros Hne. apply running_string in Hr. contradiction.
  - split; [reflexivity|]. split.
    { split; [|intros H; contradiction]. intros Hin.
      apply list_elem_of_In in Hin. simpl in Hin.
      repeat (destruct Hin as [Hin|Hin]; [discriminate|]). destruct Hin. }
    split.
    { intros ms Hms. apply list_elem_of_In in Hms. simpl in Hms.
      repeat (destruct Hms as [Hms|Hms]; [discriminate|]). destruct Hms. }
    split.
    + intros Heq. apply running_string in Heq. contradiction.
    + intros _. split; [reflexivity|]. split; [reflexivity|].
      intros later. rewrite Hstep. reflexivity.
Qed.

Lemma imap_index_from (k : nat) (l : list (list N)) :
  List.map snd (imap (fun idx err => (k + idx, err)%nat) l) = l
  /\ List.map fst (imap (fun idx err => (k + idx, err)%nat) l)
     = seq k (length l).
Proof.
  revert k. induction l as [|x l IH]; intros k; [split; reflexivity|].
  simpl. rewrite Nat.add_0_r.
  assert (Hext : imap ((fun idx err => (k + idx, err)%nat) ∘ S) l =
                 imap (fun idx err => (S k + idx, err)%nat) l).
  { apply imap_ext. intros i y _. simpl. f_equal. lia. }
  rewrite Hext. destruct (IH (S k)) as [-> ->]. split; reflexivity.
Qed.

Lemma imap_index_snd (l : list (list N)) :
  List.map snd (imap (fun idx err => (idx, err)) l) = l.
Proof. exact (proj1 (imap_index_from 0 l)). Qed.

Lemma imap_index_fst (l : list (list N)) :
  List.map fst (imap (fun idx err => (idx, err)) l) = seq 0 (length l).
Proof. exact (proj2 (imap_index_from 0 l)). Qed.

(** C5, amended. A rendered import status with a non-empty [errors]
    list is the answer of a status poll; the box lists the first five of
    its errors (all of them when there are fewer), in their order and
    keyed by their position, and shows the processed counter, the
    faces-detected counter, and the total counter when it is not 0; a
    total of 0 is shown as '?' ([total_posts || '?']). *)
Theorem renderImportStatus_errors (s : State) (st : ImportStatus)
    (errs : list (list N)) :
  importStatus s = Some st ->
  errors_of st = Some errs ->
  errs <> [] ->
  exists box job items,
    renderImportStatus s = Some box
    /\ st = Polled job
    /\ error_items box = Some items
    /\ List.map snd items = firstn 5 errs
    /\ List.map fst items = seq 0 (length items)
    /\ (length items <= 5)%nat
    /\ processed_line box
       = Some (processed_posts job,
               if total_posts job =? 0 then QuestionMark
               else Count (total_posts job))
    /\ faces_line box = Some (faces_detected job).
Proof.
  intros Hst Herrs Hne.
  destruct st as [r|job|m]; try discriminate.
  simpl in Herrs. injection Herrs as <-.
  set (items := imap (fun idx err => (idx, err)) (slice0 5 (errors job))).
  eexists _, job, items.
  split; [unfold renderImportStatus; rewrite Hst; reflexivity|].
  split; [reflexivity|].
  split.
  { cbn [error_items errors_of]. unfold render_errors.
    destruct (errors job); [congruence|reflexivity]. }
  assert (Hsnd : List.map snd items = firstn 5 (errors job))
    by apply imap_index_snd.
  split; [exact Hsnd|]. split.
  { unfold items. rewrite imap_index_fst, length_imap. reflexivity. }
  split; [|split; reflexivity].
  unfold items. rewrite length_imap. apply firstn_le_length.
Qed.

End InstagramImport.

(** ** The matcher *)

Section MatcherProperties.

Import EmbeddingMatcher.

Variable Embedding : Type.
Variable distance : Embedding -> Embedding -> Q.
Variable tolerance : Q.

Implicit Types (p : EmbeddingMatcher.Person Embedding) (d : Q).

Lemma closest_from_In (best : EmbeddingMatcher.Person Embedding * Q) cs :
  closest_from best cs = best \/ In (closest_from best cs) cs.
Proof.
  revert best. induction cs as [|c cs IH]; intros best; simpl; [tauto|].
  destruct (Qle_bool (snd best) (snd c)).
  - destruct (IH best); tauto.
  - destruct (IH c) as [->|H]; tauto.
Qed.

Lemma closest_from_le (best : EmbeddingMatcher.Person Embedding * Q) cs :
  (snd (closest_from best cs) <= snd best)%Q
  /\ forall c, In c cs -> (snd (closest_from best cs) <= snd c)%Q.
Proof.
  revert best. induction cs as [|c cs IH]; intros best; simpl.
  - split; [apply Qle_refl|tauto].
  - destruct (Qle_bool (snd best) (snd c)) eqn:Hle.
    + apply Qle_bool_iff in Hle. destruct (IH best) as [Hb Hall].
      split; [exact Hb|]. intros c' [<-|Hc'].
      * eapply Qle_trans; eassumption.
      * apply Hall, Hc'.
    + assert (Hlt : (snd c < snd best)%Q).
      { apply Qnot_le_lt. intros H. apply Qle_bool_iff in H. congruence. }
      destruct (IH c) as [Hc Hall].
      split.
      * eapply Qle_trans; [exact Hc|apply Qlt_le_weak, Hlt].
      * intros c' [<-|Hc']; [exact Hc|apply Hall, Hc'].
Qed.

Lemma candidates_In registry query p d :
  In (p, d) (candidates distance registry query) <->
  In p registry /\ exists e, In e (embeddings p) /\ d = distance e query.
Proof.
  unfold candidates. rewrite in_flat_map. split.
  - intros (p' & Hp' & Hin). apply in_map_iff in Hin.
    destruct Hin as (e & Heq & He). injection Heq as -> <-. eauto.
  - intros (Hp & e & He & ->). exists p. split; [exact Hp|].
    apply in_map_iff. eauto.
Qed.

Lemma closest_Some registry query p d :
  closest (candidates distance registry query) = Some (p, d) ->
  In (p, d) (candidates distance registry query)
  /\ forall c, In c (candidates distance registry query) -> (d <= snd c)%Q.
Proof.
  destruct (candidates distance registry query) as [|c cs]; [discriminate|].
  simpl. intros H. injection H as H.
  destruct (closest_from_In c cs) as [Heq|Hin];
    destruct (closest_from_le c cs) as [Hb Hall]; rewrite H in *; simpl in *.
  - split; [left; congruence|]. intros c' [<-|Hc']; [exact Hb|apply Hall, Hc'].
  - split; [right; exact Hin|].
    intros c' [<-|Hc']; [exact Hb|apply Hall, Hc'].
Qed.

(** C1. Modelled matcher.  Against a registry holding one person, a query
    within the tolerance of one of that person's embeddings is matched to
    that person, at a distance within the tolerance; and against any
    registry, a query farther than the tolerance from every registered
    embedding gives NoMatch. *)
Theorem match_single_person_and_NoMatch (registry : list (EmbeddingMatcher.Person Embedding))
    (E2 : Embedding) :
  (forall p E1,
      registry = [p] ->
      In E1 (embeddings p) ->
      (distance E1 E2 <= tolerance)%Q ->
      exists d,
        match_ distance tolerance registry E2 = Match (personId p) d
        /\ (d <= distance E1 E2)%Q)
  /\ ((forall p e,
          In p registry -> In e (embeddings p) ->
          (tolerance < distance e E2)%Q) ->
      match_ distance tolerance registry E2 = NoMatch).
Proof.
  split.
  - intros p E1 -> HE1 Htol. unfold match_.
    assert (Hcand : In (p, distance E1 E2) (candidates distance [p] E2)).
    { apply candidates_In. split; [left; reflexivity|eauto]. }
    destruct (closest (candidates distance [p] E2)) as [[p' d]|] eqn:Hc.
    + apply closest_Some in Hc. destruct Hc as [Hin Hmin].
      apply candidates_In in Hin. destruct Hin as [[<-|[]] _].
      specialize (Hmin _ Hcand). simpl in Hmin.
      assert (Hd : Qle_bool d tolerance = true).
      { apply Qle_bool_iff. eapply Qle_trans; eassumption. }
      rewrite Hd. eauto.
    + destruct (candidates distance [p] E2); [destruct Hcand|discriminate].
  - intros Hfar. unfold match_.
    destruct (closest (candidates distance registry E2)) as [[p d]|] eqn:Hc;
      [|reflexivity].
    apply closest_Some in Hc. destruct Hc as [Hin _].
    apply candidates_In in Hin. destruct Hin as (Hp & e & He & ->).
    specialize (Hfar p e Hp He).
    destruct (Qle_bool (distance e E2) tolerance) eqn:Hle; [|reflexivity].
    apply Qle_bool_iff in Hle. exfalso.
    exact (Qlt_irrefl _ (Qle_lt_trans _ _ _ Hle Hfar)).
Qed.

End MatcherProperties.

(** ** The properties at work on the sample data *)

Section Witnesses.

Import Samples.

Example trim_strips_both_ends : trim (js "  a b ") = js "a b".
Proof. reflexivity. Qed.

Example no_break_space_is_blank : blank [0x00A0; 0x3000; 0x0009]%N = true.
Proof. reflexivity. Qed.

(** An edge to a node that is not in the list is dropped, a loop on a
    listed node is kept. *)
Example dangling_edge_dropped :
  GraphVisualization.fg_links
    (GraphVisualization.graphData
       {| nodes := [ {| id := js "a"; label := js "Alice"; type := Person;
                        properties := [] |} ];
          edges := [ {| source := js "a"; target := js "b";
                        edge_type := js "APPEARS_IN";
                        edge_properties := None |};
                     {| source := js "a"; target := js "a";
                        edge_type := js "X"; edge_properties := None |} ] |})
  = [ {| GraphVisualization.link_source := js "a";
         GraphVisualization.link_target := js "a";
         GraphVisualization.link_type := js "X" |} ].
Proof. vm_compute. reflexivity. Qed.

Example person_node_size_and_colour :
  GraphVisualization.toFgNode
    {| id := js "a"; label := js "Alice"; type := Person; properties := [] |}
  = {| GraphVisualization.fg_id := js "a";
       GraphVisualization.fg_name := js "Alice";
       GraphVisualization.fg_type := Person;
       GraphVisualization.fg_properties := [];
       GraphVisualization.fg_val := 8;
       GraphVisualization.fg_color := js "#ef4444" |}.
Proof. vm_compute. reflexivity. Qed.

Example fetchGraphData_offline :
  Store.fetchGraphData no_answer None Store.initial
  = Store.set [Store.error_ (Some (js "Failed to fetch graph data"))]
      Store.initial.
Proof. reflexivity. Qed.

(** Two polls answer 'running', the third 'completed': three status
    requests are made and the answer a fourth would get is never asked
    for. *)
Example three_polls :
  snd (Home.polling started
         [answers (job_with running []); answers (job_with running []);
          answers (job_with completed []); answers (job_with running [])]
         importing_page)
  = [ Home.instagramApi_getImportStatus (js "job1");
      Home.setTimeout_pollStatus 2000;
      Home.instagramApi_getImportStatus (js "job1");
      Home.setTimeout_pollStatus 2000;
      Home.instagramApi_getImportStatus (js "job1");
      Home.fetchGraphData; Home.fetchPersons; Home.fetchPosts;
      Home.fetchStats ].
Proof. vm_compute. reflexivity. Qed.

Example zero_total_shows_question_mark :
  Home.total_or_question (Some 0) = Home.QuestionMark.
Proof. reflexivity. Qed.

Example nearest_of_two :
  EmbeddingMatcher.match_ manhattan (6 # 10)
    [alice;
     {| EmbeddingMatcher.personId := 2; EmbeddingMatcher.name := js "Bob";
        EmbeddingMatcher.embeddings := [[1 # 5; 0]%Q] |}]
    [1 # 10; 0]%Q
  = EmbeddingMatcher.Match 1 (1 # 10).
Proof. vm_compute. reflexivity. Qed.

Lemma match_single_person_and_NoMatch_witness :
  (exists d,
      EmbeddingMatcher.match_ manhattan (6 # 10) [alice]
        [1 # 10; 0]%Q
      = EmbeddingMatcher.Match 1 d
      /\ (d <= manhattan [0; 0] [1 # 10; 0])%Q)
  /\ EmbeddingMatcher.match_ manhattan (6 # 10) [alice]
       [1; 0]%Q
     = EmbeddingMatcher.NoMatch.
Proof.
  split.
  - apply (proj1 (match_single_person_and_NoMatch (list Q)
                    manhattan (6 # 10) [alice] [1 # 10; 0]%Q)
                 alice [0; 0]%Q).
    + reflexivity.
    + left; reflexivity.
    + vm_compute. discriminate.
  - apply (proj2 (match_single_person_and_NoMatch (list Q)
                    manhattan (6 # 10) [alice] [1; 0]%Q)).
    intros p e [<-|[]] [<-|[]]. vm_compute. reflexivity.
Defined.

Lemma pollStatus_again_iff_running_witness :
  run (answers (job_with pending []))
      (instagramApi.getImportStatus (resp_job_id started))
  = Fulfilled (job_with pending [])
  /\ Home.importing
       (fst (Home.pollStatus started (answers (job_with pending []))
               importing_page)) = false
  /\ Home.polling started
       [answers (job_with pending []); answers (job_with running [])]
       importing_page
     = Home.pollStatus started (answers (job_with pending [])) importing_page.
Proof.
  split; [reflexivity|].
  pose proof (pollStatus_again_iff_running started
                (answers (job_with pending [])) importing_page
                (job_with pending []) eq_refl) as H.
  destruct (Home.pollStatus started (answers (job_with pending []))
              importing_page) as [s' calls].
  destruct H as (_ & _ & _ & _ & H).
  destruct H as (Himp & _ & Hlater); [discriminate|].
  split; [exact Himp|apply Hlater].
Defined.

Lemma renderImportStatus_errors_witness :
  exists box job items,
    Home.renderImportStatus failing_page = Some box
    /\ Home.Polled (job_with completed six_errors) = Home.Polled job
    /\ Home.error_items box = Some items
    /\ List.map snd items = [js "e1"; js "e2"; js "e3"; js "e4"; js "e5"]
    /\ List.map fst items = seq 0 (length items)
    /\ (length items <= 5)%nat
    /\ Home.processed_line box
       = Some (processed_posts job,
               if total_posts job =? 0 then Home.QuestionMark
               else Home.Count (total_posts job))
    /\ Home.faces_line box = Some (faces_detected job).
Proof.
  apply (renderImportStatus_errors failing_page
           (Home.Polled (job_with completed six_errors)) six_errors).
  - reflexivity.
  - reflexivity.
  - discriminate.
Defined.

(** C5, as first stated, fails for a job whose total is 0: with one
    error on display, the box shows '?' where the total counter would
    be. *)
Lemma renderImportStatus_zero_total_counterexample :
  Home.importStatus not_found_page = Some (Home.Polled profile_not_found)
  /\ errors profile_not_found <> []
  /\ ~ (exists box,
          Home.renderImportStatus not_found_page = Some box
          /\ Home.processed_line box
             = Some (processed_posts profile_not_found,
                     Home.Count (total_posts profile_not_found))).
Proof.
  split; [reflexivity|]. split; [discriminate|].
  intros (box & Hbox & Hline).
  injection Hbox as <-. discriminate Hline.
Qed.

Lemma blank_name_form_reachable :
  ImageUpload.Reachable ImageUpload.person true blank_name_form.
Proof.
  apply ImageUpload.reach_setPersonName, ImageUpload.reach_onDrop,
    ImageUpload.reach_initial.
Qed.

Lemma alice_form_reachable :
  ImageUpload.Reachable ImageUpload.person true alice_form.
Proof.
  apply ImageUpload.reach_setNotes, ImageUpload.reach_setPersonName,
    ImageUpload.reach_onDrop, ImageUpload.reach_initial.
Qed.

Lemma handleUpload_person_name_guard_witness :
  (let '(s', calls) :=
     ImageUpload.handleUpload ImageUpload.person true no_answer alice_created
       blank_name_form in
   List.filter ImageUpload.is_createFromImage calls = []
   /\ ImageUpload.error s' = Some (js "Please enter a name for the person")
   /\ ImageUpload.uploading s' = false)
  /\ (let '(s', calls) :=
        ImageUpload.handleUpload ImageUpload.person true no_answer
          alice_created alice_form in
      List.filter ImageUpload.is_createFromImage calls =
        [ImageUpload.personsApi_createFromImage
           ([(js "file", FormFile photo);
             (js "name", FormString (js "Alice"))]
              ++ [(js "notes", FormString (js "met in Oslo"))])])
  /\ is_Some (ImageUpload.file blank_name_form).
Proof.
  split; [|split].
  - destruct (proj1 (handleUpload_person_name_guard true no_answer
                       alice_created blank_name_form)) as [H _].
    destruct (H eq_refl) as [Hcalls Hset].
    split; [exact Hcalls|]. apply Hset. eexists; reflexivity.
  - destruct (proj1 (handleUpload_person_name_guard true no_answer
                       alice_created alice_form)) as [_ H].
    exact (H eq_refl photo eq_refl).
  - apply (proj2 (handleUpload_person_name_guard true no_answer
                    alice_created blank_name_form)).
    + exact blank_name_form_reachable.
    + reflexivity.
Defined.


End Witnesses.

(* ===================================================================== *)
(** * Further properties *)
(* ===================================================================== *)

(** ** The store with several actions in flight *)

Section StoreInFlight.

Import Store.

(** Each async action is its [start] followed by the [settle] of its
    request. *)
Lemma actions_start_settle
    (graph_server : Request -> Settled AxiosError GraphData)
    (persons_server : Request -> Settled AxiosError (list PersonT))
    (posts_server : Request -> Settled AxiosError (list PostT))
    (stats_server : Request -> Settled AxiosError Stats)
    (limit depth : option Z) (query personId : list N)
    (type : option (list N)) (s : AppState) :
  fetchGraphData graph_server limit s
  = settle (graph_settled
              (run graph_server
                 (graphApi.getFullGraph (Some (default 500 limit)))))
      (start fetchGraphData_ s)
  /\ fetchPersons persons_server s
     = settle (persons_settled (run persons_server (personsApi.list None None)))
         (start fetchPersons_ s)
  /\ fetchPosts posts_server s
     = settle (posts_settled (run posts_server (postsApi.list None None)))
         (start fetchPosts_ s)
  /\ fetchStats stats_server s
     = settle (stats_settled (run stats_server graphApi.getStats))
         (start fetchStats_ s)
  /\ search graph_server query type s
     = settle (search_settled
                 (run graph_server
                    (graphApi.searchGet query
                       (Some (default (js "all") type)) None)))
         (start search_ s)
  /\ fetchPersonNetwork graph_server personId depth s
     = settle (network_settled
                 (run graph_server
                    (personsApi.getNetwork personId (Some (default 2 depth)))))
         (start fetchPersonNetwork_ s).
Proof.
  unfold fetchGraphData, fetchPersons, fetchPosts, fetchStats, search,
    fetchPersonNetwork.
  repeat split; simpl start; unfold settle;
    match goal with |- context [run ?srv ?call] => destruct (run srv call) end;
    reflexivity.
Qed.

Lemma settle_error (c : Settlement) (s : AppState) :
  error (settle c s)
  = match failure c with Some m => Some m | None => error s end.
Proof. destruct c as [[]|[]|[]|[]|[]|[]]; reflexivity. Qed.

Lemma settle_isLoading (c : Settlement) (s : AppState) :
  isLoading (settle c s) = if loads c then false else isLoading s.
Proof. destruct c as [[]|[]|[]|[]|[]|[]]; reflexivity. Qed.

Lemma last_cons_or {A} (x : A) (l : list A) :
  last (x :: l) = match last l with Some y => Some y | None => Some x end.
Proof.
  revert x. induction l as [|y l IH]; intros x; [reflexivity|].
  change (last (x :: y :: l)) with (last (y :: l)).
  rewrite (IH y). destruct (last l); reflexivity.
Qed.

(** X1. Whatever requests settle, in whatever order, the error left in
    the store is the message of the last one that failed among the
    actions that report failures, and the error of before when none
    failed: a success never clears it.  [isLoading] is false as soon as
    one loading action has settled, others still in flight or not. *)
Theorem settlements_error_and_loading (cs : list Settlement) (s : AppState) :
  let s' := fold_left (fun s c => settle c s) cs s in
  error s' = match last (omap failure cs) with
             | Some m => Some m
             | None => error s
             end
  /\ isLoading s' = if existsb loads cs then false else isLoading s.
Proof.
  revert s. induction cs as [|c cs IH]; intros s; [split; reflexivity|].
  simpl fold_left. destruct (IH (settle c s)) as [He Hl]. split.
  - rewrite He, settle_error.
    change (omap failure (c :: cs))
      with (match failure c with
            | Some m => m :: omap failure cs
            | None => omap failure cs
            end).
    destruct (failure c) as [m|]; [|reflexivity].
    rewrite last_cons_or. destruct (last (omap failure cs)); reflexivity.
  - rewrite Hl, settle_isLoading. simpl existsb.
    destruct (loads c); simpl; destruct (existsb loads cs); reflexivity.
Qed.

(** X2. After the page has mounted and started its four fetches, and
    whatever order they settle in: the error on display is the message of
    the last list fetch that failed, none if none failed; the spinner is
    off from the first settled list fetch on; and a failing [fetchStats]
    is never reported. *)
Theorem initialLoad_settlements (cs : list Settlement) (s : AppState) :
  let s' := fold_left (fun s c => settle c s) cs (Home.initialLoad s) in
  error s' = last (omap failure cs)
  /\ isLoading s' = negb (existsb loads cs)
  /\ (forall e, settle (stats_settled (Rejected e)) s' = s').
Proof.
  intros s'. subst s'.
  destruct (settlements_error_and_loading cs (Home.initialLoad s)) as [He Hl].
  split; [|split].
  - rewrite He. simpl. destruct (last (omap failure cs)); reflexivity.
  - rewrite Hl. simpl. destruct (existsb loads cs); reflexivity.
  - reflexivity.
Qed.

(** X3. [fetchStats] changes nothing but [stats]; when its request fails
    it changes nothing at all, so that no error is shown and [isLoading]
    is never touched. *)
Theorem fetchStats_silent (server : Request -> Settled AxiosError Stats)
    (s : AppState) :
  let s' := fetchStats server s in
  match run server graphApi.getStats with
  | Fulfilled response => stats s' = Some response
  | Rejected _ => s' = s
  end
  /\ graphData s' = graphData s /\ persons s' = persons s
  /\ posts s' = posts s /\ selectedNode s' = selectedNode s
  /\ searchResults s' = searchResults s /\ isLoading s' = isLoading s
  /\ error s' = error s /\ sidebarOpen s' = sidebarOpen s
  /\ graphMode s' = graphMode s.
Proof.
  intros s'. subst s'. unfold fetchStats.
  destruct (run server graphApi.getStats); simpl; repeat split; reflexivity.
Qed.

(** X4. [fetchPersons] and [fetchPosts]: a failure leaves the list that
    is in the store and sets the action's message; a success replaces the
    list and leaves no error; [isLoading] ends false; neither touches
    the graph, the other list, the stats, the selection or the search
    results. *)
Theorem fetch_lists_outcome
    (persons_server : Request -> Settled AxiosError (list PersonT))
    (posts_server : Request -> Settled AxiosError (list PostT))
    (s : AppState) :
  let s1 := fetchPersons persons_server s in
  let s2 := fetchPosts posts_server s in
  match run persons_server (personsApi.list None None) with
  | Fulfilled response => persons s1 = response /\ error s1 = None
  | Rejected _ =>
      persons s1 = persons s /\ error s1 = Some (js "Failed to fetch persons")
  end
  /\ match run posts_server (postsApi.list None None) with
     | Fulfilled response => posts s2 = response /\ error s2 = None
     | Rejected _ =>
         posts s2 = posts s /\ error s2 = Some (js "Failed to fetch posts")
     end
  /\ isLoading s1 = false /\ isLoading s2 = false
  /\ posts s1 = posts s /\ persons s2 = persons s
  /\ graphData s1 = graphData s /\ graphData s2 = graphData s
  /\ stats s1 = stats s /\ stats s2 = stats s
  /\ selectedNode s1 = selectedNode s /\ selectedNode s2 = selectedNode s
  /\ searchResults s1 = searchResults s /\ searchResults s2 = searchResults s.
Proof.
  intros s1 s2. subst s1 s2. unfold fetchPersons, fetchPosts.
  destruct (run persons_server _), (run posts_server _); simpl;
    repeat split; reflexivity.
Qed.

(** X5. Exploring a person's network: once the request has settled the
    store is as if [fetchPersonNetwork] (depth 2) had run and the
    selection had been cleared after it.  So the details panel is closed
    whatever the outcome, and the graph on display is replaced by the
    network on success and kept on failure. *)
Theorem handleExploreNetwork_settled
    (server : Request -> Settled AxiosError GraphData) (nodeId : list N)
    (s : AppState) :
  let answer := run server (personsApi.getNetwork nodeId (Some 2)) in
  let s' := settle (network_settled answer) (Home.handleExploreNetwork s) in
  s' = setSelectedNode None (fetchPersonNetwork server nodeId (Some 2) s)
  /\ selectedNode s' = None
  /\ graphData s' = match answer with
                    | Fulfilled network => Some network
                    | Rejected _ => graphData s
                    end.
Proof.
  intros answer s'. subst s' answer.
  unfold Home.handleExploreNetwork, fetchPersonNetwork. simpl default.
  destruct (run server _); repeat split; reflexivity.
Qed.

(** X6. The 2D/3D button and the sidebar chevron are switches: pressing
    one twice gives back the very same store state; the button changes
    [graphMode] and no other field, the chevron [sidebarOpen] and no
    other field; and they can be pressed in either order. *)
Theorem switches_involutive (s : AppState) :
  let m := Home.switchGraphMode s in
  let t := Sidebar.toggle s in
  Home.switchGraphMode m = s
  /\ Sidebar.toggle t = s
  /\ graphMode m <> graphMode s
  /\ sidebarOpen t = negb (sidebarOpen s)
  /\ (graphData m = graphData s /\ persons m = persons s
      /\ posts m = posts s /\ stats m = stats s
      /\ selectedNode m = selectedNode s
      /\ searchResults m = searchResults s /\ isLoading m = isLoading s
      /\ error m = error s /\ sidebarOpen m = sidebarOpen s)
  /\ (graphData t = graphData s /\ persons t = persons s
      /\ posts t = posts s /\ stats t = stats s
      /\ selectedNode t = selectedNode s
      /\ searchResults t = searchResults s /\ isLoading t = isLoading s
      /\ error t = error s /\ graphMode t = graphMode s)
  /\ Home.switchGraphMode t = Sidebar.toggle m.
Proof.
  destruct s as [gd ps po st sel sr il er so gm].
  unfold Home.switchGraphMode, Sidebar.toggle, setGraphMode, setSidebarOpen.
  simpl. repeat split.
  - destruct gm; reflexivity.
  - destruct so; reflexivity.
  - destruct gm; discriminate.
Qed.

End StoreInFlight.

(** ** The graph view's nodes, links and callbacks *)

Section GraphCallbacks.

Import GraphVisualization.

Lemma toGraphNode_toFgNode (node : GraphNode) :
  toGraphNode (toFgNode node) = node.
Proof. destruct node; reflexivity. Qed.

(** X7. The node list handed to the force graph keeps every input node,
    in order, and a click or a hover on a rendered node reports to the
    page the very [GraphNode] it was made from (a hover that leaves the
    node reports null). *)
Theorem rendered_nodes_report_their_source (data : GraphData) :
  List.map toGraphNode (fg_nodes (graphData data)) = nodes data
  /\ (forall node x y fgRef_current mode,
         exists zooming,
           handleNodeClick true fgRef_current mode
             {| placed := toFgNode node; node_x := x; node_y := y |}
           = onNodeClick node :: zooming
           /\ Forall (fun e => forall n, e <> onNodeClick n) zooming)
  /\ (forall node x y,
         handleNodeHover true
           (Some {| placed := toFgNode node; node_x := x; node_y := y |})
         = [onNodeHover (Some node)])
  /\ handleNodeHover true None = [onNodeHover None].
Proof.
  split; [|split; [|split]].
  - unfold graphData. simpl. rewrite List.map_map.
    rewrite <- (List.map_id (nodes data)) at 2.
    apply List.map_ext. intros n. apply toGraphNode_toFgNode.
  - intros node x y cur mode. unfold handleNodeClick. simpl.
    rewrite toGraphNode_toFgNode. eexists. split; [reflexivity|].
    destruct cur; [|constructor].
    destruct (mode_or_2d mode); repeat constructor; discriminate.
  - intros node x y. unfold handleNodeHover. simpl.
    rewrite toGraphNode_toFgNode. reflexivity.
  - reflexivity.
Qed.

(** X8. Every node is drawn with the size and the colour that its type
    has in [NODE_SIZES] and [NODE_COLORS]: the fallbacks [5] and ['#888']
    never step in, the size is between 5 and 8, and two nodes of one type
    look the same. *)
Theorem node_size_and_colour_from_tables (node : GraphNode) :
  prop NODE_SIZES (NodeType_name (type node)) = Some (fg_val (toFgNode node))
  /\ prop NODE_COLORS (NodeType_name (type node))
     = Some (fg_color (toFgNode node))
  /\ 5 <= fg_val (toFgNode node) <= 8
  /\ fg_color (toFgNode node) <> js "#888"
  /\ (forall other, type other = type node ->
        fg_val (toFgNode other) = fg_val (toFgNode node)
        /\ fg_color (toFgNode other) = fg_color (toFgNode node)).
Proof.
  destruct node as [i l t p].
  split; [destruct t; vm_compute; reflexivity|].
  split; [destruct t; vm_compute; reflexivity|].
  split; [destruct t; vm_compute; split; discriminate|].
  split; [destruct t; vm_compute; discriminate|].
  intros [i' l' t' p'] Ht. simpl in Ht. subst t'.
  destruct t; split; reflexivity.
Qed.

Lemma fg_links_filter (data : GraphData) :
  fg_links (graphData data) =
    List.map toFgLink
      (List.filter
         (fun edge =>
            bool_decide (source edge ∈ List.map id (nodes data))
            && bool_decide (target edge ∈ List.map id (nodes data)))
         (edges data)).
Proof.
  unfold graphData. simpl. f_equal.
  apply List.filter_ext. intros e. rewrite !has_nodeMap. reflexivity.
Qed.

(** X9. The transform never makes up a link: there are at most as many
    links as edges, and none when the graph has no nodes.  When every
    edge runs between listed nodes, no edge is lost: the links are the
    edges, one for one and in order. *)
Theorem links_bounded_and_complete (data : GraphData) :
  (length (fg_links (graphData data)) <= length (edges data))%nat
  /\ (nodes data = [] -> fg_links (graphData data) = [])
  /\ ((forall edge, In edge (edges data) ->
         In (source edge) (List.map id (nodes data))
         /\ In (target edge) (List.map id (nodes data))) ->
      fg_links (graphData data) = List.map toFgLink (edges data)).
Proof.
  rewrite fg_links_filter. split; [|split].
  - rewrite length_map. apply filter_length_le.
  - intros Hn. rewrite Hn. cbn [List.map].
    induction (edges data) as [|e es IH]; [reflexivity|].
    cbn [List.filter].
    destruct (bool_decide (source e ∈ [])) eqn:Hs; [|exact IH].
    apply bool_decide_eq_true in Hs. inversion Hs.
  - intros Hall. f_equal.
    induction (edges data) as [|e es IH]; [reflexivity|].
    cbn [List.filter]. destruct (Hall e (or_introl eq_refl)) as [Hs Ht].
    apply list_elem_of_In in Hs, Ht.
    rewrite (bool_decide_eq_true_2 _ Hs), (bool_decide_eq_true_2 _ Ht).
    cbn [andb]. f_equal. apply IH. intros e' He'. apply Hall. right. exact He'.
Qed.

(** X10. The size given to the force graph is never zero: it is the
    given width and height when both are there and not zero, and 800 by
    600 when one of them is missing or zero. *)
Theorem dimensions_never_zero (width height : option Z) :
  let '(w, h) := dimensions width height in
  w <> 0 /\ h <> 0
  /\ (forall w0 h0,
        width = Some w0 -> height = Some h0 -> w0 <> 0 -> h0 <> 0 ->
        (w, h) = (w0, h0))
  /\ (width = None \/ height = None \/ width = Some 0 \/ height = Some 0 ->
      (w, h) = (800, 600)).
Proof.
  unfold dimensions.
  destruct width as [w|], height as [h|];
    try (split; [lia|]; split; [lia|]; split;
         [intros; discriminate|intros; reflexivity]).
  destruct (w =? 0) eqn:Hw, (h =? 0) eqn:Hh; simpl.
  - split; [lia|]. split; [lia|]. split; [|reflexivity].
    intros w0 h0 H1 H2. injection H1 as <-. lia.
  - split; [lia|]. split; [lia|]. split; [|reflexivity].
    intros w0 h0 H1 H2. injection H1 as <-. lia.
  - split; [lia|]. split; [lia|]. split; [|reflexivity].
    intros w0 h0 H1 H2. injection H2 as <-. lia.
  - apply Z.eqb_neq in Hw, Hh.
    split; [exact Hw|]. split; [exact Hh|]. split.
    + intros w0 h0 H1 H2 _ _. congruence.
    + intros [H|[H|[H|H]]]; try discriminate; injection H as ->; contradiction.
Qed.

End GraphCallbacks.

(** ** The upload form over its whole life *)

Section UploadFormLife.

Import ImageUpload.

Variable onSuccess_provided : bool.
Variable posts_server : Request -> Settled AxiosError PostAnalysis.
Variable persons_server : Request -> Settled AxiosError PersonT.

Lemma upload_error_truthy (err : AxiosError) : truthy (upload_error err) = true.
Proof.
  unfold upload_error, or_else.
  destruct (detail err) as [d|]; [|reflexivity].
  destruct (truthy d) eqn:Hd; [exact Hd|reflexivity].
Qed.

Lemma onSuccess_not_in_call (provided : bool) :
  onSuccess ∈ call_onSuccess provided <-> provided = true.
Proof.
  destruct provided; simpl; split; intros H; try discriminate.
  - reflexivity.
  - apply list_elem_of_here.
  - inversion H.
Qed.

(** X11. Without a file [handleUpload] does nothing at all.  With one,
    in either mode and whatever the server answers, it ends with
    [uploading] false, and it never changes the file, its preview or what
    was typed. *)
Theorem handleUpload_ends_idle (mode : Mode) (s : State) :
  let s' :=
    fst (handleUpload mode onSuccess_provided posts_server persons_server s) in
  (file s = None ->
   handleUpload mode onSuccess_provided posts_server persons_server s = (s, []))
  /\ (is_Some (file s) -> uploading s' = false)
  /\ file s' = file s /\ preview s' = preview s
  /\ caption s' = caption s /\ location s' = location s
  /\ personName s' = personName s /\ notes s' = notes s.
Proof.
  unfold handleUpload. destruct (file s) as [f|] eqn:Hf.
  - split; [discriminate|].
    destruct mode.
    + destruct (run posts_server _); simpl; rewrite ?Hf; repeat split; reflexivity.
    + destruct (not_ _); [|destruct (run persons_server _)]; simpl;
        rewrite ?Hf; repeat split; reflexivity.
  - simpl. rewrite Hf. repeat split; try reflexivity.
    intros [? H]; discriminate.
Qed.

(** X12. With a file selected, [handleUpload] ends in one of two ways.
    Either an error is on display: its message is not empty, the result
    and the new faces of before are untouched, [onSuccess] was not called
    and at most one request was sent.  Or no error is on display: a
    result is stored, exactly one request was sent, and [onSuccess], when
    the prop is given, was called once, after the request. *)
Theorem handleUpload_error_or_result (mode : Mode) (s : State) :
  is_Some (file s) ->
  let '(s', calls) :=
    handleUpload mode onSuccess_provided posts_server persons_server s in
  (exists m,
      error s' = Some m /\ truthy m = true
      /\ result s' = result s /\ newFaces s' = newFaces s
      /\ (onSuccess ∉ calls) /\ (length calls <= 1)%nat)
  \/ (error s' = None /\ is_Some (result s')
      /\ exists request,
          request <> onSuccess
          /\ calls = request :: (if onSuccess_provided then [onSuccess] else [])).
Proof.
  intros [f Hf]. unfold handleUpload. rewrite Hf.
  assert (Hnot : forall c : Call, c <> onSuccess -> onSuccess ∉ [c]).
  { intros c Hc Hin. apply list_elem_of_In in Hin.
    destruct Hin as [H|[]]. congruence. }
  destruct mode.
  - destruct (run posts_server _) as [a|e].
    + right. simpl. split; [reflexivity|]. split; [eexists; reflexivity|].
      eexists. split; [|reflexivity]. discriminate.
    + left. exists (upload_error e). simpl.
      split; [reflexivity|]. split; [apply upload_error_truthy|].
      split; [reflexivity|]. split; [reflexivity|].
      split; [apply Hnot; discriminate|lia].
  - destruct (not_ _).
    + left. eexists. simpl. split; [reflexivity|]. split; [reflexivity|].
      split; [reflexivity|]. split; [reflexivity|].
      split; [intros H; inversion H|lia].
    + destruct (run persons_server _) as [p|e].
      * right. simpl. split; [reflexivity|]. split; [eexists; reflexivity|].
        eexists. split; [|reflexivity]. discriminate.
      * left. exists (upload_error e). simpl.
        split; [reflexivity|]. split; [apply upload_error_truthy|].
        split; [reflexivity|]. split; [reflexivity|].
        split; [apply Hnot; discriminate|lia].
Qed.

Lemma blank_false_truthy (name : list N) : blank name = false -> truthy name = true.
Proof. destruct name; [discriminate|reflexivity]. Qed.

(** X13. Naming a listed face: with a non-blank name, a result on
    display and the person created, row [faceIndex] becomes "Assigned
    to" that name and keeps its face; no other row changes and the list
    keeps its length.  With a blank name, no result, or the creation
    rejected, nothing changes. *)
Theorem handleAssignFace_row (faceIndex : nat) (name : list N)
    (created : bool) (s : State) (nf : NewFace) :
  newFaces s !! faceIndex = Some nf ->
  let s' := handleAssignFace faceIndex name created s in
  (blank name = false -> is_Some (result s) -> created = true ->
     newFaces s' !! faceIndex
     = Some {| face := face nf; assignedName := Some name |}
     /\ toRow <$> (newFaces s' !! faceIndex) = Some (AssignedTo name)
     /\ (forall j, j <> faceIndex -> newFaces s' !! j = newFaces s !! j)
     /\ length (newFaces s') = length (newFaces s)
     /\ List.map face (newFaces s') = List.map face (newFaces s)
     /\ result s' = result s /\ error s' = error s /\ file s' = file s)
  /\ (blank name = true \/ result s = None \/ created = false -> s' = s).
Proof.
  intros Hnf s'. subst s'. unfold handleAssignFace.
  rewrite not_trim_blank, Hnf. split.
  - intros Hb [r Hr] ->. rewrite Hb, Hr. simpl.
    assert (Hlt : (faceIndex < length (newFaces s))%nat)
      by (eapply lookup_lt_Some; eassumption).
    split; [apply list_lookup_insert_eq; exact Hlt|].
    split.
    { rewrite list_lookup_insert_eq by exact Hlt. simpl. unfold toRow. simpl.
      rewrite (blank_false_truthy _ Hb). reflexivity. }
    split; [intros j Hj; apply list_lookup_insert_ne; congruence|].
    split; [apply length_insert|].
    split; [|repeat split; simpl; congruence].
    change (List.map face) with (fmap (M:=list) face).
    rewrite list_fmap_insert. simpl. apply list_insert_id.
    rewrite list_lookup_fmap, Hnf. reflexivity.
  - intros [Hb|[Hr|Hc]].
    + rewrite Hb. reflexivity.
    + rewrite Hr. simpl. rewrite orb_true_r. reflexivity.
    + rewrite Hc. destruct (_ || _); reflexivity.
Qed.

(** X14. Dropping a file always gives a clean form: the first accepted
    file selected and previewed, the upload button on the page, no
    result, no error and no faces left from the file before, what was
    typed kept.  A drop without an accepted file changes nothing.
    Clearing hides the button and forgets the drop. *)
Theorem onDrop_clean_form (s : State) (f : File) (others : list File)
    (uuid : list N) :
  let s' := onDrop (f :: others) uuid s in
  file s' = Some f
  /\ preview s' = Some (createObjectURL uuid)
  /\ upload_button_shown s' = true
  /\ result s' = None /\ error s' = None /\ newFaces s' = []
  /\ caption s' = caption s /\ location s' = location s
  /\ personName s' = personName s /\ notes s' = notes s
  /\ onDrop [] uuid s = s
  /\ clearFile s' = clearFile s
  /\ upload_button_shown (clearFile s) = false
  /\ file (clearFile s) = None.
Proof. repeat split; reflexivity. Qed.

(** The atomic [handleUpload] is its start followed at once by its
    settlement. *)
Lemma handleUpload_start_settle (mode : Mode) (s : State) :
  is_Some (file s) ->
  (mode = person -> blank (personName s) = false) ->
  fst (handleUpload mode onSuccess_provided posts_server persons_server s)
  = upload_settled mode posts_server persons_server s (upload_started s).
Proof.
  intros [f Hf] Hname. unfold handleUpload, upload_settled. rewrite Hf.
  destruct mode.
  - simpl caption. simpl location. destruct (run posts_server _); reflexivity.
  - simpl personName. simpl notes. rewrite not_trim_blank, (Hname eq_refl).
    destruct (run persons_server _); reflexivity.
Qed.

(** The atomic [handleAssignFace], the person created, is its settlement
    in the state of the click. *)
Lemma handleAssignFace_settled_at_once (i : nat) (name : list N) (s : State) :
  handleAssignFace i name true s = assign_settled i name s s.
Proof. reflexivity. Qed.

Lemma listed_faces_new_same (mode : Mode) (s s' : State) :
  newFaces s' = newFaces s -> result s' = result s ->
  listed_faces_new mode s -> listed_faces_new mode s'.
Proof. unfold listed_faces_new. intros -> ->. tauto. Qed.

Lemma listed_faces_new_reset (mode : Mode) (s : State) :
  newFaces s = [] -> result s = None -> listed_faces_new mode s.
Proof.
  unfold listed_faces_new. intros -> ->. split; [constructor|].
  destruct mode; [discriminate|]. split; [reflexivity|discriminate].
Qed.

Lemma unassigned_new_faces (l : list FaceDetection) :
  Forall (fun nf => is_new_face (face nf) = true)
    (List.map unassigned (List.filter is_new_face l)).
Proof.
  apply Forall_forall. intros nf Hnf.
  apply list_elem_of_In, in_map_iff in Hnf. destruct Hnf as (f & <- & Hf).
  apply filter_In in Hf. exact (proj2 Hf).
Qed.

Lemma upload_settled_listed (mode : Mode) ps pes (clicked s : State) :
  listed_faces_new mode s ->
  listed_faces_new mode (upload_settled mode ps pes clicked s).
Proof.
  intros Hs. unfold upload_settled. destruct (file clicked); [|exact Hs].
  destruct mode.
  - destruct (run ps _).
    + split; [apply unassigned_new_faces|discriminate].
    + revert Hs. apply listed_faces_new_same; reflexivity.
  - destruct (not_ _); [exact Hs|]. destruct (run pes _).
    + destruct Hs as [Hall [Hnil _]]. split; [exact Hall|].
      split; [exact Hnil|discriminate].
    + revert Hs. apply listed_faces_new_same; reflexivity.
Qed.

Lemma assign_settled_listed (mode : Mode) i name (clicked s : State) :
  listed_faces_new mode clicked -> listed_faces_new mode s ->
  listed_faces_new mode (assign_settled i name clicked s).
Proof.
  intros [Hc Hcm] Hs. unfold assign_settled.
  destruct (_ || _); [exact Hs|].
  destruct (newFaces clicked !! i) as [nf|] eqn:Hnf; [|exact Hs].
  destruct mode.
  - split; [|exact (proj2 Hs)]. simpl.
    apply Forall_insert; [exact Hc|]. simpl.
    exact (Forall_lookup_1 _ _ _ _ Hc Hnf).
  - destruct Hcm as [Hnil _]. rewrite Hnil in Hnf. discriminate.
Qed.

Lemma listed_faces_new_reachable (mode : Mode) (s : State) :
  Reachable mode onSuccess_provided s -> listed_faces_new mode s.
Proof.
  induction 1 as [|s files uuid _ IH|s _ IH|s v _ IH|s v _ IH|s v _ IH
                  |s v _ IH|s ps pes Hr IH|s i name created _ IH Hi
                  |s _ IH Hf|clicked s ps pes _ IHc _ IH
                  |clicked s i name _ IHc _ IH Hi].
  - apply listed_faces_new_reset; reflexivity.
  - destruct files; [exact IH|]. apply listed_faces_new_reset; reflexivity.
  - apply listed_faces_new_reset; reflexivity.
  - revert IH. apply listed_faces_new_same; reflexivity.
  - revert IH. apply listed_faces_new_same; reflexivity.
  - revert IH. apply listed_faces_new_same; reflexivity.
  - revert IH. apply listed_faces_new_same; reflexivity.
  - unfold handleUpload. destruct (file s) as [f|] eqn:Hf; [|exact IH].
    destruct mode.
    + destruct (run ps _); simpl.
      * split; [apply unassigned_new_faces|discriminate].
      * revert IH. apply listed_faces_new_same; reflexivity.
    + destruct (not_ _); [|destruct (run pes _)]; simpl.
      * revert IH. apply listed_faces_new_same; reflexivity.
      * destruct IH as [Hall [Hnil _]]. split; [exact Hall|].
        split; [exact Hnil|discriminate].
      * revert IH. apply listed_faces_new_same; reflexivity.
  - destruct created.
    + rewrite handleAssignFace_settled_at_once.
      apply assign_settled_listed; exact IH.
    + unfold handleAssignFace. destruct (_ || _); [exact IH|].
      destruct (newFaces s !! i); exact IH.
  - revert IH. apply listed_faces_new_same; reflexivity.
  - apply upload_settled_listed. exact IH.
  - apply assign_settled_listed; assumption.
Qed.

(** X15. In every state the form can reach, requests that settle after
    later actions included, every face listed for naming is a new face
    ([is_new_face] true) and a post form never holds the empty result
    of person mode; in person mode the list is always empty and the
    result is never an analysis. *)
Theorem listed_faces_are_new_faces (mode : Mode) (s : State) :
  Reachable mode onSuccess_provided s ->
  Forall (fun nf => is_new_face (face nf) = true) (newFaces s)
  /\ match mode with
     | post => result s <> Some EmptyObject
     | person => newFaces s = [] /\ forall a, result s <> Some (Analysis a)
     end.
Proof. exact (listed_faces_new_reachable mode s). Qed.

(** X16. A naming whose request settles after other handlers have run
    writes back the rows of the state it was clicked in, with that row
    named, and touches nothing else: the rows of the results panel are
    then those of the click, next to the count and the chips of the
    result on display.  A naming settled at once is the same write.  If
    the form was cleared in between, the state is left with no result
    and rows in [newFaces], and nothing is on the page. *)
Theorem late_naming_writes_back_clicked_rows (mode : Mode) (faceIndex : nat)
    (name : list N) (clicked s : State) (nf : NewFace) :
  newFaces clicked !! faceIndex = Some nf ->
  blank name = false ->
  is_Some (result clicked) ->
  let named :=
    <[faceIndex := {| face := face nf; assignedName := Some name |}]>
      (newFaces clicked) in
  let s' := assign_settled faceIndex name clicked s in
  newFaces s' = named
  /\ named <> []
  /\ handleAssignFace faceIndex name true clicked
     = assign_settled faceIndex name clicked clicked
  /\ (file s' = file s /\ preview s' = preview s /\ uploading s' = uploading s
      /\ result s' = result s /\ error s' = error s /\ caption s' = caption s
      /\ location s' = location s /\ personName s' = personName s
      /\ notes s' = notes s)
  /\ renderResults post s'
     = match result s with
       | Some r =>
           Some {| faces_count := default 0%nat (length <$> result_faces r);
                   identified :=
                     fs ← result_faces r;
                     when_nonempty
                       (List.map toChip
                          (List.filter (fun f => negb (is_new_face f)) fs));
                   new_faces := when_nonempty (List.map toRow named) |}
       | None => None
       end
  /\ (let cleared := assign_settled faceIndex name clicked (clearFile clicked) in
      result cleared = None /\ newFaces cleared = named
      /\ renderPreview mode cleared = None)
  /\ (Reachable mode onSuccess_provided clicked ->
      Reachable mode onSuccess_provided s ->
      Reachable mode onSuccess_provided s').
Proof.
  intros Hnf Hb [r Hr] named s'.
  assert (Hset : forall s0, assign_settled faceIndex name clicked s0
                            = setNewFaces named s0).
  { intros s0. unfold assign_settled.
    rewrite not_trim_blank, Hb, Hr, Hnf. reflexivity. }
  subst s'. rewrite !Hset.
  split; [reflexivity|]. split.
  { intros Hnil. apply (f_equal length) in Hnil.
    unfold named in Hnil. rewrite length_insert in Hnil.
    apply lookup_lt_Some in Hnf. simpl in Hnil. lia. }
  split.
  { unfold handleAssignFace. rewrite not_trim_blank, Hb, Hr, Hnf.
    reflexivity. }
  split; [repeat split; reflexivity|].
  split; [unfold renderResults; simpl; destruct (result s); reflexivity|].
  split; [repeat split; reflexivity|].
  intros Hc Hs. rewrite <- Hset. apply reach_assign_settled; try assumption.
  eapply lookup_lt_Some. eassumption.
Qed.

End UploadFormLife.

(** ** The import from its start to its end *)

Section ImportRun.

Import Home.

(** X17. [handleInstagramImport] does nothing for a blank username.
    Otherwise it asks once for the import of the username as typed, with
    the chosen maximum: if that is accepted, [importing] is on, the
    status is 'started' and the first poll is due in 2000 ms; if it is
    rejected, [importing] is off again, the status is 'failed' with the
    error's message, and no poll is scheduled. *)
Theorem handleInstagramImport_start
    (server : Request -> Settled AxiosError ImportResponse) (s : State) :
  let '(s', calls, started) := handleInstagramImport server s in
  let asked :=
    instagramApi_importPosts (importUsername s) (importMaxPosts s) in
  importUsername s' = importUsername s
  /\ importMaxPosts s' = importMaxPosts s
  /\ (blank (importUsername s) = true ->
      s' = s /\ calls = [] /\ started = None)
  /\ (blank (importUsername s) = false ->
      match run server
              (instagramApi.importPosts (importUsername s)
                 (Some (importMaxPosts s)) None) with
      | Fulfilled result =>
          started = Some result
          /\ importing s' = true
          /\ importStatus s' = Some (Started result)
          /\ calls = [asked; setTimeout_pollStatus 2000]
      | Rejected e =>
          started = None
          /\ importing s' = false
          /\ importStatus s' = Some (StartFailed (message e))
          /\ calls = [asked]
      end).
Proof.
  unfold handleInstagramImport. rewrite not_trim_blank.
  destruct (blank (importUsername s)) eqn:Hb.
  - repeat split; try reflexivity. discriminate.
  - simpl importUsername. simpl importMaxPosts.
    destruct (run server _); simpl; repeat split; try reflexivity;
      discriminate.
Qed.

Lemma pollStatus_running (result : ImportResponse)
    (server : Request -> Settled AxiosError ImportJob) (job : ImportJob)
    (s : State) :
  run server (instagramApi.getImportStatus (resp_job_id result))
  = Fulfilled job ->
  status job = running ->
  pollStatus result server s
  = (setImportStatus (Some (Polled job)) s,
     [status_request result; setTimeout_pollStatus 2000]).
Proof.
  intros Hrun Hst. unfold pollStatus. rewrite Hrun, Hst. reflexivity.
Qed.

Lemma pollStatus_final (result : ImportResponse)
    (server : Request -> Settled AxiosError ImportJob) (job : ImportJob)
    (s : State) :
  run server (instagramApi.getImportStatus (resp_job_id result))
  = Fulfilled job ->
  status job <> running ->
  pollStatus result server s
  = (setImporting false (setImportStatus (Some (Polled job)) s),
     status_request result :: refreshes).
Proof.
  intros Hrun Hst. unfold pollStatus. rewrite Hrun.
  destruct (status job); try contradiction; reflexivity.
Qed.

Lemma polling_running_then_final (result : ImportResponse)
    (running_servers : list (Request -> Settled AxiosError ImportJob))
    (final_server : Request -> Settled AxiosError ImportJob)
    (final : ImportJob)
    (later : list (Request -> Settled AxiosError ImportJob)) (s : State) :
  Forall (fun server => exists job,
            run server (instagramApi.getImportStatus (resp_job_id result))
            = Fulfilled job /\ status job = running) running_servers ->
  run final_server (instagramApi.getImportStatus (resp_job_id result))
  = Fulfilled final ->
  status final <> running ->
  polling result (running_servers ++ final_server :: later) s
  = ({| importUsername := importUsername s;
        importMaxPosts := importMaxPosts s;
        importing := false;
        importStatus := Some (Polled final) |},
     flat_map (fun _ => [status_request result; setTimeout_pollStatus 2000])
       running_servers
     ++ status_request result :: refreshes).
Proof.
  intros Hall Hrun Hst. revert s.
  induction Hall as [|server servers (job & Hjob & Hr) _ IH]; intros s.
  - simpl. rewrite (pollStatus_final _ _ _ _ Hrun Hst). reflexivity.
  - simpl. rewrite (pollStatus_running _ _ _ _ Hjob Hr).
    change (scheduled [status_request result; setTimeout_pollStatus 2000])
      with true.
    cbv iota. simpl app in IH. rewrite IH. reflexivity.
Qed.

(** X18. A whole import: when the import is accepted, the status polls
    answer 'running' some number of times and then anything else, the
    page has asked for the import once, polled once per 'running' answer
    and once more, re-armed the 2000 ms timer after each 'running' answer
    only, and then fetched graph, persons, posts and stats; it ends with
    [importing] off and the last answer on display.  What the server
    would answer after that is never asked for. *)
Theorem importRun_trace
    (server : Request -> Settled AxiosError ImportResponse)
    (result : ImportResponse)
    (running_servers : list (Request -> Settled AxiosError ImportJob))
    (final_server : Request -> Settled AxiosError ImportJob)
    (final : ImportJob)
    (later : list (Request -> Settled AxiosError ImportJob)) (s : State) :
  blank (importUsername s) = false ->
  run server
    (instagramApi.importPosts (importUsername s) (Some (importMaxPosts s)) None)
  = Fulfilled result ->
  Forall (fun server => exists job,
            run server (instagramApi.getImportStatus (resp_job_id result))
            = Fulfilled job /\ status job = running) running_servers ->
  run final_server (instagramApi.getImportStatus (resp_job_id result))
  = Fulfilled final ->
  status final <> running ->
  importRun server (running_servers ++ final_server :: later) s
  = ({| importUsername := importUsername s;
        importMaxPosts := importMaxPosts s;
        importing := false;
        importStatus := Some (Polled final) |},
     [instagramApi_importPosts (importUsername s) (importMaxPosts s);
      setTimeout_pollStatus 2000]
     ++ flat_map (fun _ => [status_request result; setTimeout_pollStatus 2000])
          running_servers
     ++ status_request result :: refreshes).
Proof.
  intros Hb Hstart Hall Hrun Hst.
  unfold importRun, handleInstagramImport.
  rewrite not_trim_blank, Hb. simpl importUsername. simpl importMaxPosts.
  rewrite Hstart.
  rewrite (polling_running_then_final _ _ _ _ later _ Hall Hrun Hst).
  reflexivity.
Qed.

(** X19. A status poll that is rejected ends the polling without a
    word: nothing is stored, nothing is fetched again and no timer is
    set.  After an accepted import whose first poll is rejected the page
    is left with [importing] on and the status 'started'. *)
Theorem rejected_poll_leaves_importing
    (server : Request -> Settled AxiosError ImportResponse)
    (result : ImportResponse)
    (poll_server : Request -> Settled AxiosError ImportJob) (e : AxiosError)
    (later : list (Request -> Settled AxiosError ImportJob)) (s : State) :
  run poll_server (instagramApi.getImportStatus (resp_job_id result))
  = Rejected e ->
  polling result (poll_server :: later) s = (s, [status_request result])
  /\ (blank (importUsername s) = false ->
      run server
        (instagramApi.importPosts (importUsername s)
           (Some (importMaxPosts s)) None)
      = Fulfilled result ->
      importRun server (poll_server :: later) s
      = ({| importUsername := importUsername s;
            importMaxPosts := importMaxPosts s;
            importing := true;
            importStatus := Some (Started result) |},
         [instagramApi_importPosts (importUsername s) (importMaxPosts s);
          setTimeout_pollStatus 2000; status_request result])).
Proof.
  intros Hrej.
  assert (Hpoll : forall s0,
    polling result (poll_server :: later) s0 = (s0, [status_request result])).
  { intros s0. simpl. unfold pollStatus. rewrite Hrej. reflexivity. }
  split; [apply Hpoll|].
  intros Hb Hstart. unfold importRun, handleInstagramImport.
  rewrite not_trim_blank, Hb. simpl importUsername. simpl importMaxPosts.
  rewrite Hstart, Hpoll. reflexivity.
Qed.

(** X20. When the import request itself is rejected, the status box
    says 'failed' in red and nothing more: the message of the error,
    though stored, is not among what is rendered. *)
Theorem failed_start_shows_no_reason
    (server : Request -> Settled AxiosError ImportResponse) (e : AxiosError)
    (s : State) :
  blank (importUsername s) = false ->
  run server
    (instagramApi.importPosts (importUsername s) (Some (importMaxPosts s)) None)
  = Rejected e ->
  let s' := fst (fst (handleInstagramImport server s)) in
  importStatus s' = Some (StartFailed (message e))
  /\ renderImportStatus s'
     = Some {| colour := red; heading := js "failed";
               processed_line := None; faces_line := None;
               error_items := None |}.
Proof.
  intros Hb Hstart. unfold handleInstagramImport.
  rewrite not_trim_blank, Hb. simpl importUsername. simpl importMaxPosts.
  rewrite Hstart. split; reflexivity.
Qed.

End ImportRun.

(** ** Navigation, cards and the details panel *)

Section PageViews.

Import Home.

Lemma search_view_not_rendered (suffix : list N) :
  renderContent (js "search?q=" ++ suffix) = None.
Proof.
  unfold renderContent.
  repeat (destruct (decide _) as [H|_]; [cbv in H; discriminate H|]).
  reflexivity.
Qed.

(** X21. A search typed in the sidebar never shows anything: whatever
    the query, the view the sidebar navigates to is one the page renders
    nothing for.  It navigates once when the query is not blank and can
    be encoded, and not at all when the query is blank or
    [encodeURIComponent] throws.  Of the sidebar's own destinations the
    page renders 'graph', 'persons', 'posts', 'upload', 'instagram' and
    'stats'; for 'locations', 'hashtags' and 'settings' it renders
    nothing. *)
Theorem sidebar_search_renders_nothing
    (encodeURIComponent : list N -> option (list N)) (searchQuery : list N) :
  Forall (fun view => renderContent view = None)
    (Sidebar.handleSearch encodeURIComponent searchQuery)
  /\ Sidebar.handleSearch encodeURIComponent searchQuery
     = (if blank searchQuery then []
        else match encodeURIComponent searchQuery with
             | Some encoded => [js "search?q=" ++ encoded]
             | None => []
             end)
  /\ List.filter (fun view => bool_decide (is_Some (renderContent view)))
       Sidebar.destinations
     = [js "graph"; js "persons"; js "posts"; js "upload"; js "instagram";
        js "stats"]
  /\ List.filter (fun view => bool_decide (renderContent view = None))
       Sidebar.destinations
     = [js "locations"; js "hashtags"; js "settings"].
Proof.
  unfold Sidebar.handleSearch.
  pose proof (not_trim_blank searchQuery) as Hb. unfold not_ in Hb.
  destruct (truthy (trim searchQuery)); simpl in Hb; rewrite <- Hb; simpl.
  - destruct (encodeURIComponent searchQuery) as [encoded|].
    + split; [repeat constructor; apply search_view_not_rendered|].
      split; [reflexivity|]. split; vm_compute; reflexivity.
    + split; [constructor|].
      split; [reflexivity|]. split; vm_compute; reflexivity.
  - split; [constructor|].
    split; [reflexivity|]. split; vm_compute; reflexivity.
Qed.

(** X22. The caption on a post card is a prefix of the caption of at
    most 100 code units; the dots follow exactly when the caption is
    longer than that, and without them the whole caption is shown.  A
    post without caption shows neither. *)
Theorem caption_card_bounds (caption : option (list N)) :
  match caption with
  | Some c =>
      exists shown rest,
        caption_text caption = Some shown
        /\ c = shown ++ rest
        /\ (length shown <= 100)%nat
        /\ (caption_ellipsis caption = true <-> (100 < length c)%nat)
        /\ (caption_ellipsis caption = true <-> rest <> [])
  | None => caption_text caption = None /\ caption_ellipsis caption = false
  end.
Proof.
  destruct caption as [c|]; [|split; reflexivity].
  exists (firstn 100 c), (skipn 100 c).
  split; [reflexivity|].
  split; [symmetry; apply firstn_skipn|].
  split; [apply firstn_le_length|].
  assert (Hell : caption_ellipsis (Some c) = true <-> (100 < length c)%nat).
  { unfold caption_ellipsis. simpl. apply Nat.ltb_lt. }
  split; [exact Hell|]. rewrite Hell. split.
  - intros Hlt Hnil. apply (f_equal (@length N)) in Hnil.
    rewrite length_skipn in Hnil. simpl in Hnil. lia.
  - intros Hne. destruct (Nat.le_gt_cases (length c) 100) as [Hle|Hgt];
      [|exact Hgt].
    exfalso. apply Hne. apply skipn_all2. exact Hle.
Qed.

End PageViews.

Section DetailsPanel.

Import NodeDetails.


End DetailsPanel.

Section PollingSafety.

Import Home.

(** X24. Whatever the status servers answer or refuse, the polling
    sends at most one status request per firing of the timer and always
    for the job of the import, fetches the data again at most once (the
    four fetches together, as the last thing it does), and when it does
    so [importing] is off. *)
Theorem polling_safety (result : ImportResponse)
    (timeline : list (Request -> Settled AxiosError ImportJob)) (s : State) :
  let '(s', calls) := polling result timeline s in
  (length (List.filter is_status_request calls) <= length timeline)%nat
  /\ Forall (fun c => is_status_request c = true -> c = status_request result)
       calls
  /\ (List.filter is_refresh calls = []
      \/ (exists before, calls = before ++ refreshes
                         /\ List.filter is_refresh before = [])
         /\ importing s' = false).
Proof.
  revert s. induction timeline as [|server later IH]; intros s.
  - simpl. split; [lia|]. split; [constructor|left; reflexivity].
  - simpl. unfold pollStatus.
    destruct (run server _) as [job|e].
    + destruct (decide (ImportJobStatus_string (status job) = js "running")).
      * change (scheduled ([instagramApi_getImportStatus (resp_job_id result)]
                             ++ [setTimeout_pollStatus 2000])) with true.
        cbv iota.
        specialize (IH (setImportStatus (Some (Polled job)) s)).
        destruct (polling result later _) as [s2 calls2].
        destruct IH as (Hlen & Hreq & Href). simpl.
        split; [lia|].
        split; [repeat constructor; [discriminate|exact Hreq]|].
        destruct Href as [Hnone|[(before & -> & Hb) Himp]].
        -- left. exact Hnone.
        -- right. split; [|exact Himp].
           exists (instagramApi_getImportStatus (resp_job_id result)
                   :: setTimeout_pollStatus 2000 :: before).
           split; [reflexivity|exact Hb].
      * simpl. split; [lia|].
        split; [repeat constructor; discriminate|].
        right. split; [|reflexivity].
        exists [instagramApi_getImportStatus (resp_job_id result)].
        split; reflexivity.
    + simpl. split; [lia|].
      split; [repeat constructor|left; reflexivity].
Qed.

(** X25. The status box of a polled job: both counter lines are always
    there; the errors section is there exactly when the job has errors;
    and the colour follows the status alone (green for 'completed', red
    for 'failed', blue for 'pending' and 'running'), so that a completed
    job with errors is still green. *)
Theorem polled_job_box (s : State) (job : ImportJob) :
  importStatus s = Some (Polled job) ->
  exists box,
    renderImportStatus s = Some box
    /\ heading box = ImportJobStatus_string (status job)
    /\ is_Some (processed_line box)
    /\ faces_line box = Some (faces_detected job)
    /\ (error_items box = None <-> errors job = [])
    /\ colour box = match status job with
                    | completed => green
                    | failed => red
                    | pending | running => blue
                    end.
Proof.
  intros Hst. unfold renderImportStatus. rewrite Hst. simpl.
  eexists. split; [reflexivity|]. simpl.
  split; [reflexivity|]. split; [eexists; reflexivity|].
  split; [reflexivity|]. split.
  - destruct (errors job); simpl; split; intros H;
      try reflexivity; discriminate.
  - destruct (status job); vm_compute; reflexivity.
Qed.

End PollingSafety.

Section UploadRequests.

Import ImageUpload.

(** X26. Whatever is typed, a form sent by [handleUpload] starts with
    the selected file under 'file', names no field twice, and holds no
    empty text: an empty caption, location or notes is left out, and in
    person mode the name is there and not blank. *)
Theorem handleUpload_forms_well_formed (mode : Mode) (onSuccess_provided : bool)
    (posts_server : Request -> Settled AxiosError PostAnalysis)
    (persons_server : Request -> Settled AxiosError PersonT) (s : State) :
  Forall (fun c =>
            match form_of c with
            | Some formData =>
                (exists f, file s = Some f
                           /\ head formData = Some (js "file", FormFile f))
                /\ NoDup (List.map fst formData)
                /\ forallb text_given formData = true
                /\ (mode = person ->
                    In (js "name", FormString (personName s)) formData
                    /\ blank (personName s) = false)
            | None => True
            end)
    (snd (handleUpload mode onSuccess_provided posts_server persons_server s)).
Proof.
  unfold handleUpload. destruct (file s) as [f|]; [|constructor].
  assert (Hnd : forall l : list (list N), bool_decide (NoDup l) = true -> NoDup l).
  { intros l H. apply bool_decide_eq_true in H. exact H. }
  destruct mode.
  - simpl caption. simpl location. unfold append_if.
    destruct (truthy (caption s)) eqn:Hc, (truthy (location s)) eqn:Hl;
      destruct (run posts_server _), onSuccess_provided; simpl;
      (apply List.Forall_cons;
       [|repeat (apply List.Forall_cons; [exact I|]); apply List.Forall_nil]);
      (split; [eexists; split; reflexivity|]);
      (split; [apply Hnd; vm_compute; reflexivity|]);
      (split; [unfold text_given; simpl; rewrite ?Hc, ?Hl; reflexivity|]);
      intros H; discriminate H.
  - simpl personName. simpl notes. rewrite not_trim_blank.
    destruct (blank (personName s)) eqn:Hb; [constructor|].
    pose proof (blank_false_truthy _ Hb) as Hn.
    unfold append_if.
    destruct (truthy (notes s)) eqn:Hno;
      destruct (run persons_server _), onSuccess_provided; simpl;
      (apply List.Forall_cons;
       [|repeat (apply List.Forall_cons; [exact I|]); apply List.Forall_nil]);
      (split; [eexists; split; reflexivity|]);
      (split; [apply Hnd; vm_compute; reflexivity|]);
      (split; [unfold text_given; simpl; rewrite ?Hn, ?Hno; reflexivity|]);
      intros _; (split; [right; left; reflexivity|reflexivity]).
Qed.

End UploadRequests.

(** ** The further properties at work on the sample data *)

Section FurtherWitnesses.

Import Samples.

Lemma node_size_and_colour_from_tables_witness :
  GraphVisualization.fg_val (GraphVisualization.toFgNode node_bob)
  = GraphVisualization.fg_val (GraphVisualization.toFgNode node_alice)
  /\ GraphVisualization.fg_color (GraphVisualization.toFgNode node_bob)
     = GraphVisualization.fg_color (GraphVisualization.toFgNode node_alice).
Proof.
  apply (proj2 (proj2 (proj2 (proj2
           (node_size_and_colour_from_tables node_alice)))) node_bob).
  reflexivity.
Defined.

Lemma dimensions_never_zero_witness :
  GraphVisualization.dimensions (Some 1024) (Some 768) = (1024, 768)
  /\ GraphVisualization.dimensions (Some 1024) (Some 0) = (800, 600).
Proof.
  split.
  - pose proof (dimensions_never_zero (Some 1024) (Some 768)) as H.
    destruct (GraphVisualization.dimensions (Some 1024) (Some 768))
      as [w h].
    destruct H as (_ & _ & H & _).
    apply (H 1024 768); [reflexivity|reflexivity|discriminate|discriminate].
  - pose proof (dimensions_never_zero (Some 1024) (Some 0)) as H.
    destruct (GraphVisualization.dimensions (Some 1024) (Some 0)) as [w h].
    destruct H as (_ & _ & _ & H).
    apply H. right. right. right. reflexivity.
Defined.

Lemma links_bounded_and_complete_witness :
  GraphVisualization.fg_links (GraphVisualization.graphData closed_graph)
  = List.map GraphVisualization.toFgLink (edges closed_graph).
Proof.
  apply (proj2 (proj2 (links_bounded_and_complete closed_graph))).
  intros edge [<-|[<-|[]]]; simpl; tauto.
Defined.

Lemma handleUpload_ends_idle_witness :
  ImageUpload.handleUpload ImageUpload.post true analysed no_answer
    ImageUpload.initial = (ImageUpload.initial, [])
  /\ ImageUpload.uploading analysed_form = false.
Proof.
  split.
  - apply (proj1 (handleUpload_ends_idle true analysed no_answer
                    ImageUpload.post ImageUpload.initial)).
    reflexivity.
  - apply (proj1 (proj2 (handleUpload_ends_idle true analysed no_answer
                           ImageUpload.post post_form))).
    eexists; reflexivity.
Defined.

Lemma handleUpload_error_or_result_witness :
  is_Some (ImageUpload.file post_form)
  /\ exists m,
      ImageUpload.error
        (fst (ImageUpload.handleUpload ImageUpload.post true no_answer
                no_answer post_form))
      = Some m
      /\ truthy m = true.
Proof.
  assert (Hfile : is_Some (ImageUpload.file post_form))
    by (eexists; reflexivity).
  split; [exact Hfile|].
  destruct (handleUpload_error_or_result true no_answer no_answer
              ImageUpload.post post_form Hfile)
    as [(m & Hm & Ht & _)|(Hnone & _)].
  - exists m. split; [exact Hm|exact Ht].
  - discriminate Hnone.
Defined.

Lemma handleAssignFace_row_witness :
  ImageUpload.toRow
    <$> (ImageUpload.newFaces
           (ImageUpload.handleAssignFace 0 (js "Bob") true analysed_form)
         !! 0%nat)
  = Some (ImageUpload.AssignedTo (js "Bob")).
Proof.
  apply (proj1 (handleAssignFace_row 0 (js "Bob") true analysed_form
                  (ImageUpload.unassigned face_new) eq_refl)).
  - reflexivity.
  - eexists; reflexivity.
  - reflexivity.
Defined.

Lemma analysed_form_reachable :
  ImageUpload.Reachable ImageUpload.post true analysed_form.
Proof.
  apply ImageUpload.reach_handleUpload, ImageUpload.reach_onDrop,
    ImageUpload.reach_initial.
Qed.

Lemma listed_faces_are_new_faces_witness :
  Forall (fun nf => is_new_face (ImageUpload.face nf) = true)
    (ImageUpload.newFaces late_named_form)
  /\ ImageUpload.result late_named_form <> Some ImageUpload.EmptyObject.
Proof.
  apply (listed_faces_are_new_faces true ImageUpload.post late_named_form).
  apply ImageUpload.reach_assign_settled.
  - exact analysed_form_reachable.
  - apply ImageUpload.reach_handleUpload, ImageUpload.reach_onDrop,
      ImageUpload.reach_clearFile.
    exact analysed_form_reachable.
  - simpl. lia.
Defined.

Lemma late_naming_writes_back_clicked_rows_witness :
  ImageUpload.renderResults ImageUpload.post late_named_form
  = Some {| ImageUpload.faces_count := 0;
            ImageUpload.identified := None;
            ImageUpload.new_faces :=
              Some [ImageUpload.AssignedTo (js "Bob")] |}.
Proof.
  exact (proj1 (proj2 (proj2 (proj2 (proj2
           (late_naming_writes_back_clicked_rows true ImageUpload.post 0
              (js "Bob") analysed_form empty_photo_form
              (ImageUpload.unassigned face_new) eq_refl eq_refl
              (ex_intro _ _ eq_refl))))))).
Defined.

Lemma handleInstagramImport_start_witness :
  Home.importing (fst (fst (Home.handleInstagramImport accepted typed_page)))
  = true
  /\ snd (fst (Home.handleInstagramImport accepted
                 (Home.setImportStatus None
                    {| Home.importUsername := js "  ";
                       Home.importMaxPosts := 50; Home.importing := false;
                       Home.importStatus := None |}))) = [].
Proof.
  split.
  - destruct (handleInstagramImport_start accepted typed_page)
      as (_ & _ & _ & H).
    destruct (H eq_refl) as (_ & Himp & _). exact Himp.
  - destruct (handleInstagramImport_start accepted
                (Home.setImportStatus None
                   {| Home.importUsername := js "  ";
                      Home.importMaxPosts := 50; Home.importing := false;
                      Home.importStatus := None |}))
      as (_ & _ & H & _).
    destruct (H eq_refl) as (_ & Hcalls & _). exact Hcalls.
Defined.

Lemma importRun_trace_witness :
  Home.importRun accepted
    [answers (job_with running []); answers (job_with completed []);
     answers (job_with running [])] typed_page
  = ({| Home.importUsername := js "alice"; Home.importMaxPosts := 50;
        Home.importing := false;
        Home.importStatus := Some (Home.Polled (job_with completed [])) |},
     [Home.instagramApi_importPosts (js "alice") 50;
      Home.setTimeout_pollStatus 2000]
     ++ flat_map (fun _ => [Home.status_request started;
                            Home.setTimeout_pollStatus 2000])
          [answers (job_with running [])]
     ++ Home.status_request started :: Home.refreshes).
Proof.
  apply (importRun_trace accepted started [answers (job_with running [])]
           (answers (job_with completed [])) (job_with completed [])
           [answers (job_with running [])] typed_page).
  - reflexivity.
  - reflexivity.
  - constructor; [|constructor].
    exists (job_with running []). split; reflexivity.
  - reflexivity.
  - discriminate.
Defined.

Lemma rejected_poll_leaves_importing_witness :
  Home.importing
    (fst (Home.importRun accepted [no_answer; answers (job_with completed [])]
            typed_page)) = true.
Proof.
  rewrite (proj2 (rejected_poll_leaves_importing accepted started no_answer
                    {| message := js "Network Error"; detail := None |}
                    [answers (job_with completed [])] typed_page eq_refl)
                 eq_refl eq_refl).
  reflexivity.
Defined.

Lemma failed_start_shows_no_reason_witness :
  Home.renderImportStatus
    (fst (fst (Home.handleInstagramImport no_answer typed_page)))
  = Some {| Home.colour := Home.red; Home.heading := js "failed";
            Home.processed_line := None; Home.faces_line := None;
            Home.error_items := None |}.
Proof.
  apply (failed_start_shows_no_reason no_answer
           {| message := js "Network Error"; detail := None |} typed_page);
    reflexivity.
Defined.

Lemma polled_job_box_witness :
  exists box,
    Home.renderImportStatus failing_page = Some box
    /\ Home.heading box = js "completed"
    /\ is_Some (Home.processed_line box)
    /\ Home.faces_line box = Some 12
    /\ (Home.error_items box = None <-> six_errors = [])
    /\ Home.colour box = Home.green.
Proof.
  apply (polled_job_box failing_page (job_with completed six_errors)).
  reflexivity.
Defined.

Lemma polling_safety_witness :
  Forall (fun c => Home.is_status_request c = true ->
                   c = Home.status_request started)
    (snd (Home.polling started
            [answers (job_with running []); no_answer] importing_page)).
Proof.
  pose proof (polling_safety started
                [answers (job_with running []); no_answer] importing_page)
    as H.
  destruct (Home.polling started _ importing_page) as [s' calls].
  exact (proj1 (proj2 H)).
Defined.

Lemma handleUpload_forms_well_formed_witness :
  Forall (fun c =>
            match ImageUpload.form_of c with
            | Some formData =>
                In (js "name", FormString (js "Alice")) formData
            | None => True
            end)
    (snd (ImageUpload.handleUpload ImageUpload.person true no_answer
            alice_created alice_form)).
Proof.
  pose proof (handleUpload_forms_well_formed ImageUpload.person true
                no_answer alice_created alice_form) as H.
  eapply List.Forall_impl; [|exact H].
  intros c. simpl. destruct (ImageUpload.form_of c); [|trivial].
  intros (_ & _ & _ & Hname). exact (proj1 (Hname eq_refl)).
Defined.

End FurtherWitnesses.
